(** * nwm-to-s3: the NWM fetch pipeline of [fetch_nwm.py]

    A shallow embedding of the Python functions of [fetch_nwm.py]
    ([get_latest_nwm_url], [download_nwm_file], [categorize_velocity],
    [categorize_streamflow], [process_nwm_data], [upload_to_s3], [main])
    and the properties their specification states about them.

    Python floats are IEEE 754 binary64 numbers; they are modelled by the
    Standard Library's [spec_float] at precision 53 and maximal exponent
    1024.  Python strings are modelled by [string], S3 keys being ASCII.
    The dictionary [sites] is a [gmap string float]. *)

From Stdlib Require Import ZArith String Ascii List Bool Lia.
From Stdlib Require Import Sorting.Sorted Sorting.Permutation.
From Stdlib Require Import Floats.SpecFloat.
From stdpp Require Import gmap strings list pretty sorting.

Local Open Scope Z_scope.

(* ===================================================================== *)
(** * Python floats *)
(* ===================================================================== *)

Module PyFloat.

Definition prec : Z := 53.
Definition emax : Z := 1024.

(** A Python [float]; the binary64 values are the [valid] ones. *)
Definition float : Type := spec_float.

Definition valid (x : float) : bool := valid_binary prec emax x.

(** [x < y], [x <= y] on floats: both are false as soon as an operand
    is NaN. *)
Definition lt (x y : float) : bool := SFltb x y.
Definition le (x y : float) : bool := SFleb x y.

(** [np.isnan(x)] *)
Definition isnan (x : float) : bool :=
  match x with
  | S754_nan => true
  | _ => false
  end.

(** Quotient [n / d] rounded half-to-even to an integer ([d > 0]). *)
Definition round_half_even (n d : Z) : Z :=
  let k := n / d in
  let r := n mod d in
  match 2 * r ?= d with
  | Lt => k
  | Gt => k + 1
  | Eq => if Z.even k then k else k + 1
  end.

(** The number of bits of [p / q] before the binary point: the [mag]
    with [2^(mag-1) <= p/q < 2^mag]. *)
Definition mag (p q : positive) : Z :=
  let a := Z.log2 (Zpos p) in
  let b := Z.log2 (Zpos q) in
  if Zpos q * 2 ^ a <=? Zpos p * 2 ^ b then a - b + 1 else a - b.

(** The exponent of the binary64 numbers around a rational of
    magnitude [mg]: 53 significant bits, and never below [-1074]. *)
Definition cexp (mg : Z) : Z := Z.max (mg - prec) (3 - emax - prec).

(** [p / (q * 2^c)] rounded half-to-even to an integer. *)
Definition scaled_mantissa (p q : positive) (c : Z) : Z :=
  if 0 <=? c then round_half_even (Zpos p) (Zpos q * 2 ^ c)
  else round_half_even (Zpos p * 2 ^ (- c)) (Zpos q).

(** The binary64 number nearest to the rational [p / q] (ties to the
    even mantissa), with sign [s].  This is the rounding of IEEE 754
    arithmetic, and the one Python applies when it reads a decimal
    literal or the decimal string produced by [round]. *)
Definition nearest_float (s : bool) (p q : positive) : float :=
  let c := cexp (mag p q) in
  let m := scaled_mantissa p q c in
  let '(m, c) := if m =? 2 ^ prec then (2 ^ (prec - 1), c + 1) else (m, c) in
  match m with
  | Zpos m => if c <=? emax - prec then S754_finite s m c else S754_infinity s
  | _ => S754_zero s
  end.

(** [-x] *)
Definition neg (x : float) : float := SFopp x.

(** The decimal literal [n / d], as in [0.1 = decimal 1 10]. *)
Definition decimal (n d : positive) : float := nearest_float false n d.

(** [float(n)] for a Python int [n].  Python compares a float with an
    int by value; for the small ints of this program that is the
    comparison with the converted int. *)
Definition of_int (n : Z) : float :=
  match n with
  | Z0 => S754_zero false
  | Zpos p => nearest_float false p 1
  | Zneg p => nearest_float true p 1
  end.

(** The value [m * 2^e] counted in hundredths, rounded half-to-even
    to a whole number of them. *)
Definition hundredths (m : positive) (e : Z) : Z :=
  if 0 <=? e then round_half_even (100 * Zpos m * 2 ^ e) 1
  else round_half_even (100 * Zpos m) (2 ^ (- e)).

(** [round(x, 2)] on a float: the decimal expansion of [x] is rounded
    half-to-even at the second decimal, and the result is read back as
    the nearest float.  Zeros, infinities and NaN round to
    themselves, and the sign of [x] is kept. *)
Definition round2 (x : float) : float :=
  match x with
  | S754_finite s m e =>
      match hundredths m e with
      | Zpos n => nearest_float s n 100
      | _ => S754_zero s
      end
  | _ => x
  end.

End PyFloat.

Import PyFloat.

(* ===================================================================== *)
(** * The classifiers *)
(* ===================================================================== *)

(** [categorize_velocity(velocity_ms)] *)
Definition categorize_velocity (velocity_ms : float) : string :=
  if lt velocity_ms (decimal 1 10) then "very_slow"
  else if lt velocity_ms (decimal 3 10) then "slow"
  else if lt velocity_ms (decimal 6 10) then "moderate"
  else if lt velocity_ms (decimal 10 10) then "fast"
  else if lt velocity_ms (decimal 20 10) then "very_fast"
  else "extreme".

(** [categorize_streamflow(cms)] *)
Definition categorize_streamflow (cms : float) : string :=
  if lt cms (of_int 1) then "very_low"
  else if lt cms (of_int 10) then "low"
  else if lt cms (of_int 50) then "moderate"
  else if lt cms (of_int 200) then "high"
  else if lt cms (of_int 1000) then "very_high"
  else "extreme".

(** The labels and the half-open buckets [(lo, hi, label)] of the two
    classifiers, [None] being an absent bound. *)
Definition velocity_labels : list string :=
  ["very_slow"; "slow"; "moderate"; "fast"; "very_fast"; "extreme"].

Definition streamflow_labels : list string :=
  ["very_low"; "low"; "moderate"; "high"; "very_high"; "extreme"].

Definition velocity_buckets : list (option float * option float * string) :=
  [ (None, Some (decimal 1 10), "very_slow");
    (Some (decimal 1 10), Some (decimal 3 10), "slow");
    (Some (decimal 3 10), Some (decimal 6 10), "moderate");
    (Some (decimal 6 10), Some (decimal 10 10), "fast");
    (Some (decimal 10 10), Some (decimal 20 10), "very_fast");
    (Some (decimal 20 10), None, "extreme") ].

Definition streamflow_buckets : list (option float * option float * string) :=
  [ (None, Some (of_int 1), "very_low");
    (Some (of_int 1), Some (of_int 10), "low");
    (Some (of_int 10), Some (of_int 50), "moderate");
    (Some (of_int 50), Some (of_int 200), "high");
    (Some (of_int 200), Some (of_int 1000), "very_high");
    (Some (of_int 1000), None, "extreme") ].

(** Both classifiers are one ladder of five ascending thresholds and
    six labels. *)
Definition ladder (t1 t2 t3 t4 t5 : float) (l0 l1 l2 l3 l4 l5 : string)
    (x : float) : string :=
  if lt x t1 then l0
  else if lt x t2 then l1
  else if lt x t3 then l2
  else if lt x t4 then l3
  else if lt x t5 then l4
  else l5.

Definition ladder_buckets (t1 t2 t3 t4 t5 : float) (l0 l1 l2 l3 l4 l5 : string)
  : list (option float * option float * string) :=
  [ (None, Some t1, l0); (Some t1, Some t2, l1); (Some t2, Some t3, l2);
    (Some t3, Some t4, l3); (Some t4, Some t5, l4); (Some t5, None, l5) ].

(** [lo <= x < hi] *)
Definition in_bucket (lo hi : option float) (x : float) : bool :=
  match lo with Some a => le a x | None => true end
  && match hi with Some b => lt x b | None => true end.

(* ===================================================================== *)
(** * Exceptions *)
(* ===================================================================== *)

(** The exceptions the program meets; all of them are subclasses of
    Python's [Exception]. *)
Inductive exn : Type :=
  | ValueError
  | IndexError
  | KeyError
  | OSError
  | ClientError          (* botocore: a failed S3 request *)
  | RequestException     (* requests: a failed HTTP request or status *)
  | RuntimeError (msg : string).

(** A computation that returns a value or raises. *)
Inductive result (A : Type) : Type :=
  | Ok (a : A)
  | Raise (e : exn).

Arguments Ok {A} a.
Arguments Raise {A} e.

(** Sequencing: an exception of the first computation ends the second. *)
Global Instance result_bind : MBind result := fun A B k r =>
  match r with
  | Ok a => k a
  | Raise e => Raise e
  end.

Global Instance result_ret : MRet result := fun A a => Ok a.

(* ===================================================================== *)
(** * Python strings *)
(* ===================================================================== *)

Module PyStr.

(** [s.startswith(prefix)] *)
Fixpoint startswith (s prefix : string) {struct prefix} : bool :=
  match prefix, s with
  | EmptyString, _ => true
  | String b prefix', String a s' => Ascii.eqb a b && startswith s' prefix'
  | String _ _, EmptyString => false
  end.

(** [sub in s] *)
Fixpoint contains (sub s : string) : bool :=
  startswith s sub
  || match s with
     | EmptyString => false
     | String _ s' => contains sub s'
     end.

(** [s.endswith(suffix)] *)
Fixpoint endswith (s suffix : string) : bool :=
  String.eqb s suffix
  || match s with
     | EmptyString => false
     | String _ s' => endswith s' suffix
     end.

(** [s.split(sep)] for a separator that is not empty: the pieces
    between the occurrences of [sep], found from left to right without
    overlap.  [skip] counts the characters of a matched separator still
    to be passed over, [cur] is the piece being read. *)
Fixpoint split_go (sep : string) (skip : nat) (cur s : string) : list string :=
  match s with
  | EmptyString => [cur]
  | String c s' =>
      match skip with
      | S k => split_go sep k cur s'
      | O =>
          if startswith s sep
          then cur :: split_go sep (String.length sep - 1) EmptyString s'
          else split_go sep 0 (cur +:+ String c EmptyString) s'
      end
  end.

Definition split (s sep : string) : list string := split_go sep 0 EmptyString s.

(** [s[:n]] *)
Definition take (n : nat) (s : string) : string := substring 0 n s.

Definition is_space (c : ascii) : bool :=
  let n := nat_of_ascii c in
  ((9 <=? n) && (n <=? 13) || (28 <=? n) && (n <=? 32))%nat.

Definition is_digit (c : ascii) : bool :=
  let n := nat_of_ascii c in ((48 <=? n) && (n <=? 57))%nat.

Definition digit_value (c : ascii) : Z := Z.of_nat (nat_of_ascii c) - 48.

Fixpoint lstrip (s : string) : string :=
  match s with
  | String c s' => if is_space c then lstrip s' else s
  | EmptyString => EmptyString
  end.

Fixpoint rstrip (s : string) : string :=
  match s with
  | String c s' =>
      let r := rstrip s' in
      if is_space c && String.eqb r EmptyString then EmptyString else String c r
  | EmptyString => EmptyString
  end.

(** The digits of an [int] literal: decimal digits, where single
    underscores may stand between two digits. *)
Fixpoint parse_digits (acc : Z) (after_digit : bool) (s : string) : option Z :=
  match s with
  | EmptyString => if after_digit then Some acc else None
  | String c s' =>
      if is_digit c then parse_digits (10 * acc + digit_value c) true s'
      else if Ascii.eqb c "_" && after_digit then
        match s' with
        | String d _ => if is_digit d then parse_digits acc false s' else None
        | EmptyString => None
        end
      else None
  end.

(** [int(s)] in base ten: surrounding whitespace is dropped, one sign
    is allowed; anything else raises [ValueError]. *)
Definition int (s : string) : result Z :=
  let t := rstrip (lstrip s) in
  let parsed :=
    match t with
    | String "+" r => parse_digits 0 false r
    | String "-" r => option_map Z.opp (parse_digits 0 false r)
    | _ => parse_digits 0 false t
    end in
  match parsed with
  | Some n => Ok n
  | None => Raise ValueError
  end.

(** [str(n)] for an integer, zero-padded to [width] digits as
    [strftime] does for the fields of a date. *)
Definition zero_pad (width : nat) (n : Z) : string :=
  let d := pretty n in
  String.concat EmptyString (repeat "0"%string (width - String.length d)) +:+ d.

End PyStr.

(* ===================================================================== *)
(** * [datetime] in UTC *)
(* ===================================================================== *)

Record datetime : Type := mk_datetime {
  year : Z; month : Z; day : Z;
  hour : Z; minute : Z; second : Z; microsecond : Z
}.

Definition is_leap (y : Z) : bool :=
  (y mod 4 =? 0) && (negb (y mod 100 =? 0) || (y mod 400 =? 0)).

Definition days_in_month (y m : Z) : Z :=
  if m =? 2 then (if is_leap y then 29 else 28)
  else if (m =? 4) || (m =? 6) || (m =? 9) || (m =? 11) then 30
  else 31.

(** The values a [datetime] can have. *)
Definition valid_datetime (d : datetime) : bool :=
  (1 <=? year d) && (year d <=? 9999) && (1 <=? month d) && (month d <=? 12)
  && (1 <=? day d) && (day d <=? days_in_month (year d) (month d))
  && (0 <=? hour d) && (hour d <=? 23) && (0 <=? minute d) && (minute d <=? 59)
  && (0 <=? second d) && (second d <=? 59)
  && (0 <=? microsecond d) && (microsecond d <=? 999999).

(** [d.replace(hour=0, minute=0, second=0, microsecond=0)] *)
Definition midnight (d : datetime) : datetime :=
  mk_datetime (year d) (month d) (day d) 0 0 0 0.

(** [d.replace(day=v)]: [ValueError] when the month has no day [v]. *)
Definition replace_day (d : datetime) (v : Z) : result datetime :=
  if (1 <=? v) && (v <=? days_in_month (year d) (month d))
  then Ok (mk_datetime (year d) (month d) v (hour d) (minute d) (second d) (microsecond d))
  else Raise ValueError.

(** [d.replace(hour=v)]: [ValueError] unless [0 <= v <= 23]. *)
Definition replace_hour (d : datetime) (v : Z) : result datetime :=
  if (0 <=? v) && (v <=? 23)
  then Ok (mk_datetime (year d) (month d) (day d) v (minute d) (second d) (microsecond d))
  else Raise ValueError.

(** [d.strftime("%Y%m%d")] *)
Definition strftime_Ymd (d : datetime) : string :=
  PyStr.zero_pad 4 (year d) +:+ PyStr.zero_pad 2 (month d) +:+ PyStr.zero_pad 2 (day d).

(** The calendar day before the date of [d], which is what "yesterday"
    means; [get_latest_nwm_url] does not compute it this way. *)
Definition previous_day (d : datetime) : datetime :=
  if 1 <? day d then mk_datetime (year d) (month d) (day d - 1) 0 0 0 0
  else if 1 <? month d
       then mk_datetime (year d) (month d - 1) (days_in_month (year d) (month d - 1)) 0 0 0 0
       else mk_datetime (year d - 1) 12 31 0 0 0 0.

(* ===================================================================== *)
(** * The NOAA bucket *)
(* ===================================================================== *)

Definition NWM_BUCKET : string := "noaa-nwm-pds".

(** The public bucket as the Locator sees it: the keys of its objects,
    and the prefixes for which a listing request fails. *)
Record s3_bucket : Type := {
  object_keys : list string;
  listing_fails : string -> bool
}.

(** [s3.list_objects_v2(Bucket=NWM_BUCKET, Prefix=prefix, MaxKeys=max_keys)]:
    one page of at most [max_keys] keys with the prefix, in ascending
    order of their bytes; [response["Contents"]] is absent ([None]) when
    there is none.  A failed request raises. *)
Definition list_objects_v2 (s3 : s3_bucket) (prefix : string) (max_keys : nat)
  : result (option (list string)) :=
  if listing_fails s3 prefix then Raise ClientError
  else
    match take max_keys (merge_sort String.le (filter (fun k => PyStr.startswith k prefix = true) (object_keys s3))) with
    | [] => Ok None
    | contents => Ok (Some contents)
    end.

(* ===================================================================== *)
(** * The Locator: [get_latest_nwm_url] *)
(* ===================================================================== *)

(** The date tried [days_ago] days back (lines 59-61); it is computed
    before the [try] block. *)
Definition candidate_date (now : datetime) (days_ago : Z) : result datetime :=
  let date := midnight now in
  if days_ago =? 0 then Ok date
  else replace_day date (day date - days_ago).

(** [f"nwm.{date_str}/analysis_assim/"] *)
Definition partition_prefix (date : datetime) : string :=
  "nwm." +:+ strftime_Ymd date +:+ "/analysis_assim/".

(** The keys of the channel-routing files of a listing. *)
Definition channel_files (contents : list string) : list string :=
  filter (fun k => PyStr.contains "channel_rt" k && PyStr.endswith k ".nc" = true) contents.

(** [channel_files.sort(reverse=True)] *)
Definition sort_reverse (l : list string) : list string :=
  merge_sort (flip String.le) l.

(** [int(latest.split(".t")[1][:2])] *)
Definition parse_hour (latest : string) : result Z :=
  match PyStr.split latest ".t" !! 1%nat with
  | None => Raise IndexError
  | Some segment => PyStr.int (PyStr.take 2 segment)
  end.

(** The body of the [try] block for one date: [Ok (Some r)] is
    [return r], [Ok None] is [continue]. *)
Definition try_date (s3 : s3_bucket) (date : datetime)
  : result (option (string * datetime)) :=
  response ← list_objects_v2 s3 (partition_prefix date) 100;
  match response with
  | None => Ok None
  | Some contents =>
      match sort_reverse (channel_files contents) with
      | [] => Ok None
      | latest :: _ =>
          h ← parse_hour latest;
          ref_time ← replace_hour date h;
          Ok (Some ("s3://" +:+ NWM_BUCKET +:+ "/" +:+ latest, ref_time))
      end
  end.

(** The loop over [days_ago]; an exception of the [try] block is caught
    and the loop goes on, one raised before it is not. *)
Fixpoint scan_days (s3 : s3_bucket) (now : datetime) (days : list Z)
  : result (string * datetime) :=
  match days with
  | [] => Raise (RuntimeError "Could not find recent NWM data")
  | days_ago :: rest =>
      date ← candidate_date now days_ago;
      match try_date s3 date with
      | Ok (Some found) => Ok found
      | Ok None => scan_days s3 now rest
      | Raise _ => scan_days s3 now rest
      end
  end.

(** [get_latest_nwm_url()], [now] being [datetime.now(timezone.utc)]. *)
Definition get_latest_nwm_url (s3 : s3_bucket) (now : datetime)
  : result (string * datetime) :=
  scan_days s3 now [0; 1].

(** What a date contributes to the search: a file, or nothing. *)
Definition found (s3 : s3_bucket) (date : datetime) : option (string * datetime) :=
  match try_date s3 date with
  | Ok (Some r) => Some r
  | _ => None
  end.

(* ===================================================================== *)
(** * The Extractor: [process_nwm_data] *)
(* ===================================================================== *)

(** The variables of an opened channel-routing file:
    [ds["feature_id"].values] and [ds["streamflow"].values.flatten()]. *)
Record dataset : Type := {
  feature_id : list Z;
  streamflow : list float
}.

(** The default of the parameter [min_streamflow], [10.0]. *)
Definition DEFAULT_MIN_STREAMFLOW : float := decimal 100 10.

(** The loop of lines 202-216 from row [i] on, with the dictionary
    [sites] and the counter [skipped] as they stand; [streamflow[i]]
    raises [IndexError] past the end of the array. *)
Fixpoint process_rows (comids : list Z) (i : nat) (flows : list float)
    (min_streamflow : float) (sites : gmap string float) (skipped : nat)
  : result (gmap string float * nat) :=
  match comids with
  | [] => Ok (sites, skipped)
  | comid :: rest =>
      match flows !! i with
      | None => Raise IndexError
      | Some q =>
          if isnan q || lt q (of_int 0)
          then process_rows rest (S i) flows min_streamflow sites (S skipped)
          else if lt q min_streamflow
          then process_rows rest (S i) flows min_streamflow sites (S skipped)
          else process_rows rest (S i) flows min_streamflow
                 (<[pretty comid := round2 q]> sites) skipped
      end
  end.

(** [process_nwm_data] on the opened file [ds]: the dictionary it
    returns, and the count of skipped rows it prints. *)
Definition process_nwm_data (ds : dataset) (min_streamflow : float)
  : result (gmap string float * nat) :=
  process_rows (feature_id ds) 0 (streamflow ds) min_streamflow ∅ 0.

(** A row is left out when its streamflow is NaN, negative or below the
    minimum. *)
Definition excluded (min_streamflow q : float) : bool :=
  isnan q || lt q (of_int 0) || lt q min_streamflow.

(** The rows [(identifier, streamflow)] of two parallel arrays. *)
Definition rows (comids : list Z) (flows : list float) : list (Z * float) :=
  zip comids flows.

(** The entry a kept row contributes. *)
Definition add_row (sites : gmap string float) (row : Z * float) : gmap string float :=
  <[pretty row.1 := round2 row.2]> sites.

(** The rows of the example of the specification:
    [(100, -1.0), (101, nan), (102, 5.0), (103, 15.0)]. *)
Definition four_rows : dataset :=
  {| feature_id := [100; 101; 102; 103];
     streamflow := [neg (decimal 10 10); S754_nan; decimal 50 10; decimal 150 10] |}.

(* ===================================================================== *)
(** * The world of a run: files and the output bucket *)
(* ===================================================================== *)

(** The document [output] of [upload_to_s3]. *)
Record document : Type := {
  generated_at : datetime;
  reference_time : datetime;
  site_count : nat;
  sites : gmap string float
}.

(** [json.dumps(output, separators=(",", ":"))] and
    [json.dump(output, f, indent=2)] write the same document in two
    layouts. *)
Inductive json_layout : Type := Compact | Indented.

(** What a file holds: a NetCDF file that opens as a dataset, bytes that
    do not, or a JSON document. *)
Inductive content : Type :=
  | NetCDF (ds : dataset)
  | Unreadable
  | Json (layout : json_layout) (doc : document).

Inductive node : Type :=
  | Dir
  | File (c : content).

(** [s3.put_object(Bucket, Key, Body, ContentType, CacheControl)], with
    the credential profile of the session that sends it. *)
Record put_request : Type := {
  put_profile : option string;
  put_bucket : string;
  put_key : string;
  put_body : content;
  put_content_type : string;
  put_cache_control : string
}.

(** The local file system, by path, and the authenticated PUT requests
    sent so far. *)
Record world : Type := {
  fs : gmap string node;
  puts : list put_request
}.

(** The configuration read from the environment at import. *)
Record config : Type := {
  OUTPUT_BUCKET : string;
  OUTPUT_REGION : string;
  AWS_PROFILE : option string
}.

Definition OUTPUT_KEY : string := "live/current_velocity.json".

(** The answer to [requests.get(url, stream=True)]: no answer at all, or
    a status, the [content-length] header, the body, and whether the
    body arrives whole. *)
Inductive http_response : Type :=
  | ConnectionFailed
  | Response (status : Z) (content_length : option string) (body : content)
      (complete : bool).

(** What a run meets outside the program. *)
Record environment : Type := {
  noaa : s3_bucket;                      (* the public NOAA bucket *)
  clock : datetime;                      (* datetime.now in the Locator *)
  upload_clock : datetime;               (* datetime.now in upload_to_s3 *)
  http_get : string -> http_response;    (* requests.get *)
  mkdtemp : string;                      (* the directory tempfile.mkdtemp makes *)
  put_fails : bool                       (* the PUT request is refused *)
}.

(* ===================================================================== *)
(** * [download_nwm_file] *)
(* ===================================================================== *)

(** [s3_url.replace("s3://", "").split("/", 1)]: the bucket and the key
    of ["s3://bucket/key"]. *)
Fixpoint split_once (s : string) (cur : string) : list string :=
  match s with
  | EmptyString => [cur]
  | String c s' =>
      if Ascii.eqb c "/" then [cur; s'] else split_once s' (cur +:+ String c EmptyString)
  end.

(** [s.replace("s3://", "")] *)
Fixpoint remove_scheme (skip : nat) (s : string) : string :=
  match s with
  | EmptyString => EmptyString
  | String c s' =>
      match skip with
      | S k => remove_scheme k s'
      | O => if PyStr.startswith s "s3://" then remove_scheme 4 s'
             else String c (remove_scheme 0 s')
      end
  end.

Definition https_url_of (s3_url : string) : result string :=
  let parts := split_once (remove_scheme 0 s3_url) EmptyString in
  match parts !! 0%nat, parts !! 1%nat with
  | Some bucket, Some key => Ok ("https://" +:+ bucket +:+ ".s3.amazonaws.com/" +:+ key)
  | _, _ => Raise IndexError
  end.

(** [int(response.headers.get("content-length", 0))] *)
Definition total_size (content_length : option string) : result Z :=
  match content_length with
  | None => Ok 0
  | Some v => PyStr.int v
  end.

(** [download_nwm_file(s3_url)]: the scratch directory is made first;
    every later failure leaves the function by an exception. *)
Definition download_nwm_file (env : environment) (s3_url : string) (w : world)
  : result string * world :=
  match https_url_of s3_url with
  | Raise e => (Raise e, w)
  | Ok https_url =>
      let temp_dir := mkdtemp env in
      let w1 := {| fs := <[temp_dir := Dir]> (fs w); puts := puts w |} in
      let temp_file := temp_dir +:+ "/nwm_channel_rt.nc" in
      match http_get env https_url with
      | ConnectionFailed => (Raise RequestException, w1)
      | Response status content_length body complete =>
          if (400 <=? status) && (status <? 600) then (Raise RequestException, w1)
          else
            match total_size content_length with
            | Raise e => (Raise e, w1)
            | Ok _ =>
                if complete
                then (Ok temp_file,
                      {| fs := <[temp_file := File body]> (fs w1); puts := puts w1 |})
                else (Raise RequestException,
                      {| fs := <[temp_file := File Unreadable]> (fs w1); puts := puts w1 |})
            end
      end
  end.

(* ===================================================================== *)
(** * [upload_to_s3] *)
(* ===================================================================== *)

Definition LOCAL_PATH : string := "current_velocity.json".

(** [upload_to_s3(data, ref_time, dry_run)] *)
Definition upload_to_s3 (cfg : config) (env : environment)
    (data : gmap string float) (ref_time : datetime) (dry_run : bool) (w : world)
  : result string * world :=
  let output := {| generated_at := upload_clock env;
                   reference_time := ref_time;
                   site_count := size data;
                   sites := data |} in
  if dry_run then
    (Ok LOCAL_PATH,
     {| fs := <[LOCAL_PATH := File (Json Indented output)]> (fs w); puts := puts w |})
  else
    let profile :=
      match AWS_PROFILE cfg with
      | Some p => if String.eqb p EmptyString then None else Some p
      | None => None
      end in
    if put_fails env then (Raise ClientError, w)
    else
      (Ok ("https://" +:+ OUTPUT_BUCKET cfg +:+ ".s3." +:+ OUTPUT_REGION cfg
             +:+ ".amazonaws.com/" +:+ OUTPUT_KEY),
       {| fs := fs w;
          puts := puts w ++ [ {| put_profile := profile;
                                 put_bucket := OUTPUT_BUCKET cfg;
                                 put_key := OUTPUT_KEY;
                                 put_body := Json Compact output;
                                 put_content_type := "application/json";
                                 put_cache_control := "max-age=300" |} ] |}).

(* ===================================================================== *)
(** * [main] *)
(* ===================================================================== *)

(** [xr.open_dataset(nc_path)] *)
Definition open_dataset (w : world) (nc_path : string) : result dataset :=
  match fs w !! nc_path with
  | Some (File (NetCDF ds)) => Ok ds
  | Some (File _) => Raise ValueError
  | _ => Raise OSError
  end.

(** [path.parent] of a file in the scratch directory. *)
Definition parent_of (env : environment) : string := mkdtemp env.

(** [path.rmdir()]: only an empty directory can be removed. *)
Definition rmdir (d : string) (w : world) : result unit * world :=
  if decide (set_Exists (fun p => PyStr.startswith p (d +:+ "/") = true) (dom (fs w)))
  then (Raise OSError, w)
  else (Ok (), {| fs := delete d (fs w); puts := puts w |}).

(** The [finally] block of [main]. *)
Definition cleanup (env : environment) (nc_path : string) (w : world)
  : result unit * world :=
  match fs w !! nc_path with
  | Some _ =>
      rmdir (parent_of env) {| fs := delete nc_path (fs w); puts := puts w |}
  | None => (Ok (), w)
  end.

(** The body of the [try] block of [main]. *)
Definition process_and_upload (cfg : config) (env : environment)
    (nc_path : string) (ref_time : datetime) (dry_run : bool) (w : world)
  : result string * world :=
  match ds ← open_dataset w nc_path; process_nwm_data ds DEFAULT_MIN_STREAMFLOW with
  | Raise e => (Raise e, w)
  | Ok (data, _) => upload_to_s3 cfg env data ref_time dry_run w
  end.

(** [main()] with the flag [--dry-run]: how the run ends, and the world
    it leaves. *)
Definition main (cfg : config) (env : environment) (dry_run : bool) (w : world)
  : result string * world :=
  match get_latest_nwm_url (noaa env) (clock env) with
  | Raise e => (Raise e, w)
  | Ok (s3_url, ref_time) =>
      match download_nwm_file env s3_url w with
      | (Raise e, w1) => (Raise e, w1)
      | (Ok nc_path, w1) =>
          let '(r, w2) := process_and_upload cfg env nc_path ref_time dry_run w1 in
          match cleanup env nc_path w2 with
          | (Raise e, w3) => (Raise e, w3)
          | (Ok _, w3) => (r, w3)
          end
      end
  end.

(* ===================================================================== *)
(** * Sample data *)
(* ===================================================================== *)

(** The key of an analysis-assimilation file, as NOAA names them. *)
Definition nwm_key (date_str hh product tm : string) : string :=
  "nwm." +:+ date_str +:+ "/analysis_assim/nwm.t" +:+ hh +:+ "z.analysis_assim."
    +:+ product +:+ ".tm" +:+ tm +:+ ".conus.nc".

(** A bucket whose listings all succeed. *)
Definition bucket_of (keys : list string) : s3_bucket :=
  {| object_keys := keys; listing_fails := fun _ => false |}.

(** Three channel-routing files of 15 January 2024, and a run at 14:30
    on that day. *)
Definition three_hours : list string :=
  [ nwm_key "20240115" "09" "channel_rt" "00";
    nwm_key "20240115" "12" "channel_rt" "00";
    nwm_key "20240115" "06" "channel_rt" "00" ].

Definition jan_15 : datetime := mk_datetime 2024 1 15 14 30 5 7.

(** A whole day of analysis-assimilation output: four products, three
    look-back steps, twenty-four hours, 288 objects. *)
Definition full_day (date_str : string) : list string :=
  hh ← (PyStr.zero_pad 2 <$> seqZ 0 24);
  product ← ["channel_rt"; "land"; "reservoir"; "terrain_rt"]%string;
  tm ← ["00"; "01"; "02"]%string;
  [nwm_key date_str hh product tm].

(** The first day of a month, and of a year. *)
Definition mar_1 : datetime := mk_datetime 2024 3 1 5 0 0 0.
Definition new_year : datetime := mk_datetime 2025 1 1 0 30 0 0.

(** A bucket that holds the last file of 29 February 2024, and whose
    listing of 1 March fails. *)
Definition leap_day_bucket : s3_bucket :=
  {| object_keys := [nwm_key "20240229" "23" "channel_rt" "00"];
     listing_fails := fun prefix => String.eqb prefix "nwm.20240301/analysis_assim/" |}.

(** A run on 15 January 2024 against the three sample files, with the
    given answer to the download request. *)
Definition sample_env (answer : http_response) : environment :=
  {| noaa := bucket_of three_hours;
     clock := jan_15;
     upload_clock := mk_datetime 2024 1 15 14 31 0 0;
     http_get := fun _ => answer;
     mkdtemp := "/tmp/tmpk3v9w2";
     put_fails := false |}.

Definition sample_config : config :=
  {| OUTPUT_BUCKET := "nwm-streamflow-data";
     OUTPUT_REGION := "us-east-1";
     AWS_PROFILE := None |}.

Definition empty_world : world := {| fs := ∅; puts := [] |}.

(** One row of 10.004 cubic metres per second, for a minimum of 10.004. *)
Definition one_row : dataset :=
  {| feature_id := [1]; streamflow := [decimal 10004 1000] |}.

(** A listing whose greatest channel-routing key has no hour in it. *)
Definition unreadable_hour : list string :=
  [ nwm_key "20240115" "12" "channel_rt" "00";
    nwm_key "20240115" "xx" "channel_rt" "00" ].

(** The place of a label in the ascending list of labels. *)
Fixpoint label_rank (labels : list string) (l : string) : nat :=
  match labels with
  | [] => 0
  | l' :: rest => if String.eqb l l' then 0 else S (label_rank rest l)
  end.

(** Two rows for one identifier, and a last one below the minimum. *)
Definition repeated_rows : dataset :=
  {| feature_id := [7; 7; 7];
     streamflow := [decimal 120 10; decimal 340 10; decimal 50 10] |}.

(** The scratch directory is new: the file system has nothing in it. *)
Definition fresh_scratch (env : environment) (w : world) : Prop :=
  forall p, p ∈ dom (fs w) -> PyStr.startswith p (mkdtemp env +:+ "/") = false.

(* ===================================================================== *)
(** * The order on floats *)
(* ===================================================================== *)

Section FloatOrder.

Implicit Types x y z : float.

Lemma lt_compare x y : lt x y = true <-> SFcompare x y = Some Lt.
Proof.
  unfold lt, SFltb. destruct (SFcompare x y) as [[]|]; split; congruence.
Qed.

Lemma le_compare x y :
  le x y = true <-> SFcompare x y = Some Lt \/ SFcompare x y = Some Eq.
Proof.
  unfold le, SFleb. destruct (SFcompare x y) as [[]|]; split; intuition congruence.
Qed.

Lemma compare_nan_None x y :
  SFcompare x y = None <-> isnan x = true \/ isnan y = true.
Proof.
  destruct x as [[]|[]| |[] ? ?], y as [[]|[]| |[] ? ?]; simpl;
    split; intuition congruence.
Qed.

Lemma compare_antisym x y :
  SFcompare y x = option_map CompOpp (SFcompare x y).
Proof.
  destruct x as [[]|[]| |[] mx ex], y as [[]|[]| |[] my ey]; simpl; try reflexivity;
    rewrite (Z.compare_antisym ex ey); destruct (ex ?= ey); simpl; try reflexivity;
    change (Pos.compare_cont Eq my mx) with (Pos.compare my mx);
    change (Pos.compare_cont Eq mx my) with (Pos.compare mx my);
    rewrite (Pos.compare_antisym mx my);
    destruct (Pos.compare mx my); reflexivity.
Qed.

(** Without NaN the order is total: [not (x < y)] is [y <= x]. *)
Lemma le_negb_lt x y :
  isnan x = false -> isnan y = false -> le y x = negb (lt x y).
Proof.
  intros Hx Hy. unfold le, lt, SFleb, SFltb.
  rewrite (compare_antisym x y).
  destruct (SFcompare x y) as [[]|] eqn:E; try reflexivity.
  apply compare_nan_None in E. destruct E; congruence.
Qed.

Lemma le_not_lt x y : le y x = true -> lt x y = false.
Proof.
  unfold le, lt, SFleb, SFltb. rewrite (compare_antisym x y).
  destruct (SFcompare x y) as [[]|]; simpl; congruence.
Qed.

Lemma lt_le x y : lt x y = true -> le x y = true.
Proof.
  unfold le, lt, SFleb, SFltb. destruct (SFcompare x y) as [[]|]; congruence.
Qed.

Lemma lt_not_nan x y : lt x y = true -> isnan x = false /\ isnan y = false.
Proof.
  destruct x as [[]|[]| |[] ? ?], y as [[]|[]| |[] ? ?]; simpl; auto; discriminate.
Qed.

Lemma le_not_nan x y : le x y = true -> isnan x = false /\ isnan y = false.
Proof.
  destruct x as [[]|[]| |[] ? ?], y as [[]|[]| |[] ? ?]; simpl; auto; discriminate.
Qed.

(** A NaN compares false with everything. *)
Lemma lt_nan_l y : lt S754_nan y = false.
Proof. reflexivity. Qed.

Lemma lt_nan_r x : lt x S754_nan = false.
Proof. destruct x; reflexivity. Qed.

Ltac order_cases :=
  repeat match goal with
    | |- context [ (?a ?= ?b)%Z ] => destruct (Z.compare_spec a b)
    | |- context [ Pos.compare_cont Eq ?a ?b ] =>
        change (Pos.compare_cont Eq a b) with (Pos.compare a b);
        destruct (Pos.compare_spec a b)
    | H : context [ (?a ?= ?b)%Z ] |- _ => destruct (Z.compare_spec a b)
    | H : context [ Pos.compare_cont Eq ?a ?b ] |- _ =>
        change (Pos.compare_cont Eq a b) with (Pos.compare a b) in H;
        destruct (Pos.compare_spec a b)
    end;
  simpl in *; try congruence; try lia.

Lemma compare_Lt_trans x y z :
  SFcompare x y = Some Lt -> SFcompare y z = Some Lt -> SFcompare x z = Some Lt.
Proof.
  destruct x as [[]|[]| |[] mx ex], y as [[]|[]| |[] my ey], z as [[]|[]| |[] mz ez];
    simpl; try congruence; intros H1 H2; f_equal;
    injection H1 as H1; injection H2 as H2; order_cases.
Qed.

Lemma lt_trans x y z : lt x y = true -> lt y z = true -> lt x z = true.
Proof. rewrite !lt_compare. apply compare_Lt_trans. Qed.

End FloatOrder.

(* ===================================================================== *)
(** * The classifiers: buckets *)
(* ===================================================================== *)

Section Ladder.

(** Five ascending thresholds and six labels, as both classifiers have
    them. *)
Variables t1 t2 t3 t4 t5 : float.
Variables l0 l1 l2 l3 l4 l5 : string.

Local Abbreviation ladder := (ladder t1 t2 t3 t4 t5 l0 l1 l2 l3 l4 l5).
Local Abbreviation ladder_buckets := (ladder_buckets t1 t2 t3 t4 t5 l0 l1 l2 l3 l4 l5).

Hypothesis asc12 : lt t1 t2 = true.
Hypothesis asc23 : lt t2 t3 = true.
Hypothesis asc34 : lt t3 t4 = true.
Hypothesis asc45 : lt t4 t5 = true.
Hypothesis distinct : NoDup [l0; l1; l2; l3; l4; l5].

Lemma ladder_label x : In (ladder x) [l0; l1; l2; l3; l4; l5].
Proof.
  unfold ladder.
  destruct (lt x t1), (lt x t2), (lt x t3), (lt x t4), (lt x t5); simpl; tauto.
Qed.

Lemma ladder_bucket x lo hi l :
  isnan x = false ->
  In (lo, hi, l) ladder_buckets ->
  ladder x = l <-> in_bucket lo hi x = true.
Proof.
  intros Hx Hin.
  destruct (lt_not_nan _ _ asc12) as [N1 N2].
  destruct (lt_not_nan _ _ asc34) as [N3 N4].
  destruct (lt_not_nan _ _ asc45) as [_ N5].
  assert (M12 : lt x t1 = true -> lt x t2 = true) by (intros; eapply lt_trans; eauto).
  assert (M23 : lt x t2 = true -> lt x t3 = true) by (intros; eapply lt_trans; eauto).
  assert (M34 : lt x t3 = true -> lt x t4 = true) by (intros; eapply lt_trans; eauto).
  assert (M45 : lt x t4 = true -> lt x t5 = true) by (intros; eapply lt_trans; eauto).
  pose proof distinct as D. rewrite !NoDup_cons, !not_elem_of_cons in D.
  unfold ladder_buckets in Hin. simpl in Hin.
  unfold ladder, in_bucket.
  repeat match goal with
    | H : _ \/ _ |- _ => destruct H
    | H : (_, _, _) = (_, _, _) |- _ => injection H as <- <- <-
    | H : False |- _ => destruct H
    end;
    rewrite ?(le_negb_lt x t1), ?(le_negb_lt x t2), ?(le_negb_lt x t3),
      ?(le_negb_lt x t4), ?(le_negb_lt x t5) by assumption;
    (destruct (lt x t1); [pose proof (M12 eq_refl)|]);
    (destruct (lt x t2); [pose proof (M23 eq_refl)|]);
    (destruct (lt x t3); [pose proof (M34 eq_refl)|]);
    (destruct (lt x t4); [pose proof (M45 eq_refl)|]);
    destruct (lt x t5); simpl; try discriminate; intuition congruence.
Qed.

(** No gaps and no overlaps: a float that is not NaN lies in exactly
    one bucket. *)
Lemma ladder_one_bucket x :
  isnan x = false ->
  exists b, In b ladder_buckets /\ in_bucket b.1.1 b.1.2 x = true /\
    forall b', In b' ladder_buckets -> in_bucket b'.1.1 b'.1.2 x = true -> b' = b.
Proof.
  intros Hx.
  assert (Hb : exists b, In b ladder_buckets /\ b.2 = ladder x).
  { pose proof (ladder_label x) as Hl. unfold ladder_buckets. simpl in Hl |- *.
    repeat destruct Hl as [Hl|Hl]; try contradiction;
      eexists (_, _, _); (split; [|exact Hl]); simpl; tauto. }
  destruct Hb as ([[lo hi] l] & Hin & Hl). simpl in Hl. subst l.
  exists (lo, hi, ladder x). split; [assumption|]. split.
  - simpl. apply (ladder_bucket x lo hi (ladder x) Hx Hin). reflexivity.
  - intros [[lo' hi'] l'] Hin' Hb'. simpl in Hb'.
    apply (ladder_bucket x lo' hi' l' Hx Hin') in Hb'. rewrite Hb' in *.
    pose proof distinct as D. rewrite !NoDup_cons, !not_elem_of_cons in D.
    unfold ladder_buckets in Hin, Hin'. simpl in Hin, Hin'.
    repeat match goal with
      | H : _ \/ _ |- _ => destruct H
      | H : False |- _ => destruct H
      end;
      repeat match goal with
        | H : (_, _, _) = (_, _, _) |- _ => injection H as ? ? ?
        end; subst; try reflexivity; exfalso; intuition congruence.
Qed.

End Ladder.

(* ===================================================================== *)
(** * The classifiers of [fetch_nwm.py] *)
(* ===================================================================== *)

Lemma categorize_velocity_ladder x :
  categorize_velocity x =
  ladder (decimal 1 10) (decimal 3 10) (decimal 6 10) (decimal 10 10) (decimal 20 10)
    "very_slow" "slow" "moderate" "fast" "very_fast" "extreme" x.
Proof. reflexivity. Qed.

Lemma categorize_streamflow_ladder x :
  categorize_streamflow x =
  ladder (of_int 1) (of_int 10) (of_int 50) (of_int 200) (of_int 1000)
    "very_low" "low" "moderate" "high" "very_high" "extreme" x.
Proof. reflexivity. Qed.

(** C7.  Both classifiers are total, with values among their six
    labels; on a float that is not NaN the label is that of the
    half-open bucket [lo <= x < hi] the float lies in, exactly one
    bucket containing it; and the four boundary values of the
    specification are classified as it says. *)
Theorem classifiers_half_open_buckets :
  (forall x, In (categorize_velocity x) velocity_labels /\
             In (categorize_streamflow x) streamflow_labels) /\
  (forall x lo hi l, isnan x = false ->
     (In (lo, hi, l) velocity_buckets ->
        categorize_velocity x = l <-> in_bucket lo hi x = true) /\
     (In (lo, hi, l) streamflow_buckets ->
        categorize_streamflow x = l <-> in_bucket lo hi x = true)) /\
  (forall x, isnan x = false ->
     (exists b, In b velocity_buckets /\ in_bucket b.1.1 b.1.2 x = true /\
        forall b', In b' velocity_buckets -> in_bucket b'.1.1 b'.1.2 x = true -> b' = b) /\
     (exists b, In b streamflow_buckets /\ in_bucket b.1.1 b.1.2 x = true /\
        forall b', In b' streamflow_buckets -> in_bucket b'.1.1 b'.1.2 x = true -> b' = b)) /\
  categorize_velocity (decimal 1 10) = "slow" /\
  categorize_velocity (decimal 999 10000) = "very_slow" /\
  categorize_streamflow (of_int 1000) = "extreme" /\
  categorize_streamflow (decimal 999999 1000) = "very_high".
Proof.
  assert (Dv : NoDup velocity_labels) by compute_done.
  assert (Ds : NoDup streamflow_labels) by compute_done.
  split; [|split; [|split]].
  - intros x. rewrite categorize_velocity_ladder, categorize_streamflow_ladder.
    split; apply ladder_label.
  - intros x lo hi l Hx.
    rewrite categorize_velocity_ladder, categorize_streamflow_ladder.
    split; intros Hin; apply ladder_bucket; auto.
  - intros x Hx. split.
    + apply (ladder_one_bucket (decimal 1 10) (decimal 3 10) (decimal 6 10)
               (decimal 10 10) (decimal 20 10)
               "very_slow" "slow" "moderate" "fast" "very_fast" "extreme"); auto.
    + apply (ladder_one_bucket (of_int 1) (of_int 10) (of_int 50) (of_int 200)
               (of_int 1000)
               "very_low" "low" "moderate" "high" "very_high" "extreme"); auto.
  - repeat split; vm_compute; reflexivity.
Qed.

Lemma classifiers_half_open_buckets_witness :
  categorize_velocity (decimal 5 10) = "moderate" <->
  in_bucket (Some (decimal 3 10)) (Some (decimal 6 10)) (decimal 5 10) = true.
Proof.
  apply (proj1 (proj2 classifiers_half_open_buckets)
           (decimal 5 10) (Some (decimal 3 10)) (Some (decimal 6 10)) "moderate").
  - reflexivity.
  - simpl. tauto.
Defined.

(** C10.  A NaN passed to either classifier falls through every
    comparison and is labelled ["extreme"]. *)
Theorem classifiers_nan_extreme :
  categorize_velocity S754_nan = "extreme" /\
  categorize_streamflow S754_nan = "extreme" /\
  (forall t, lt S754_nan t = false).
Proof. repeat split. Qed.

(* ===================================================================== *)
(** * Rounding to two decimals *)
(* ===================================================================== *)

Section Rounding.

(** The nearest float has the sign asked for, and is never NaN. *)
Lemma nearest_float_cases s p q :
  nearest_float s p q = S754_zero s \/
  nearest_float s p q = S754_infinity s \/
  exists m e, nearest_float s p q = S754_finite s m e.
Proof.
  unfold nearest_float.
  destruct (scaled_mantissa p q (cexp (mag p q)) =? 2 ^ prec).
  - destruct (2 ^ (prec - 1)); auto.
    destruct (cexp (mag p q) + 1 <=? emax - prec); eauto.
  - destruct (scaled_mantissa p q (cexp (mag p q))); auto.
    destruct (cexp (mag p q) <=? emax - prec); eauto.
Qed.

(** [round(x, 2)] has the sign of [x], and is NaN only for NaN. *)
Lemma round2_cases x :
  match x with
  | S754_finite s _ _ =>
      round2 x = S754_zero s \/ round2 x = S754_infinity s \/
      exists m e, round2 x = S754_finite s m e
  | _ => round2 x = x
  end.
Proof.
  destruct x as [s|s| |s m e]; try reflexivity.
  unfold round2. destruct (hundredths m e); auto.
  apply nearest_float_cases.
Qed.

Lemma round2_not_nan x : isnan x = false -> isnan (round2 x) = false.
Proof.
  intros H. pose proof (round2_cases x) as C.
  destruct x as [s|s| |s m e]; try assumption; try discriminate.
  destruct C as [-> |[-> |(m' & e' & ->)]]; reflexivity.
Qed.

(** A float that is not negative is not negative once rounded. *)
Lemma round2_not_negative x :
  isnan x = false -> lt x (of_int 0) = false -> lt (round2 x) (of_int 0) = false.
Proof.
  intros Hn H. pose proof (round2_cases x) as C.
  destruct x as [s|s| |s m e]; try assumption; try discriminate.
  destruct s; [discriminate|].
  destruct C as [-> |[-> |(m' & e' & ->)]]; reflexivity.
Qed.

(** On sample rationals, among them ties, subnormal numbers and
    overflow, the nearest float is the quotient the Standard Library's
    division computes. *)
Lemma nearest_float_agrees_with_division :
  Forall (fun pq : positive * positive =>
            nearest_float false pq.1 pq.2
            = SFdiv prec emax (S754_finite false pq.1 0) (S754_finite false pq.2 0))
    [ (1, 10); (3, 10); (999, 10000); (999999, 1000); (10004, 1000);
      (1, 3); (2 ^ 53 + 1, 1); (2 ^ 53 + 3, 1); (2 ^ 54 - 1, 1);
      (1, 2 ^ 1074); (1, 2 ^ 1075); (3, 2 ^ 1075); (3, 2 ^ 1076);
      (2 ^ 53 - 1, 2 ^ 1075); (2 ^ 1024 - 2 ^ 970 - 1, 1);
      (2 ^ 1024 - 2 ^ 970, 1); (2 ^ 1024, 1); (1, 10 ^ 320);
      (1, 10 ^ 400); (10 ^ 400, 1) ]%positive.
Proof. repeat constructor. Qed.

(** [round(2.675, 2) = 2.67] and [round(0.125, 2) = 0.12], while
    [round(0.375, 2) = 0.38] and [round(12.345, 2) = 12.35]: the decimal
    value of the float is rounded, ties to the even digit. *)
Lemma round2_samples :
  round2 (decimal 2675 1000) = decimal 267 100 /\
  round2 (decimal 125 1000) = decimal 12 100 /\
  round2 (decimal 375 1000) = decimal 38 100 /\
  round2 (decimal 12345 1000) = decimal 1235 100 /\
  round2 (neg (decimal 4 1000)) = S754_zero true /\
  round2 (decimal 150 10) = decimal 150 10.
Proof. repeat split; vm_compute; reflexivity. Qed.

End Rounding.

(* ===================================================================== *)
(** * Rounding is monotone *)
(* ===================================================================== *)

Section RoundHalfEven.

Variable d : Z.
Hypothesis d_pos : 0 < d.

Lemma round_half_even_exact k : round_half_even (k * d) d = k.
Proof.
  unfold round_half_even.
  rewrite Z.div_mul, Z.mod_mul by lia.
  replace (2 * 0 ?= d) with Lt by (symmetry; apply Z.compare_lt_iff; lia).
  reflexivity.
Qed.

Lemma round_half_even_mono n1 n2 :
  n1 <= n2 -> round_half_even n1 d <= round_half_even n2 d.
Proof.
  intros H. unfold round_half_even.
  pose proof (Z.div_mod n1 d ltac:(lia)) as E1.
  pose proof (Z.div_mod n2 d ltac:(lia)) as E2.
  pose proof (Z.mod_pos_bound n1 d d_pos) as B1.
  pose proof (Z.mod_pos_bound n2 d d_pos) as B2.
  pose proof (Z.div_le_mono n1 n2 d d_pos H) as Hk.
  set (k1 := n1 / d) in *. set (k2 := n2 / d) in *.
  set (r1 := n1 mod d) in *. set (r2 := n2 mod d) in *.
  destruct (Z.eq_dec k1 k2) as [E|NE].
  - assert (r1 <= r2) by nia. rewrite E.
    destruct (Z.compare_spec (2 * r1) d), (Z.compare_spec (2 * r2) d);
      destruct (Z.even k2); lia.
  - destruct (Z.compare_spec (2 * r1) d), (Z.compare_spec (2 * r2) d);
      destruct (Z.even k1), (Z.even k2); lia.
Qed.

Lemma round_half_even_lower k n : k * d <= n -> k <= round_half_even n d.
Proof.
  intros H. rewrite <- (round_half_even_exact k). now apply round_half_even_mono.
Qed.

Lemma round_half_even_upper k n : n <= k * d -> round_half_even n d <= k.
Proof.
  intros H. rewrite <- (round_half_even_exact k). now apply round_half_even_mono.
Qed.

(** The quotient does not change when both numbers are scaled. *)
Lemma round_half_even_scale c n :
  0 < c -> round_half_even (c * n) (c * d) = round_half_even n d.
Proof.
  intros Hc. unfold round_half_even.
  rewrite Z.div_mul_cancel_l, Z.mul_mod_distr_l by lia.
  replace (2 * (c * (n mod d)) ?= c * d) with (2 * (n mod d) ?= d); [reflexivity|].
  destruct (Z.compare_spec (2 * (n mod d)) d);
    destruct (Z.compare_spec (2 * (c * (n mod d))) (c * d)); try reflexivity; nia.
Qed.

End RoundHalfEven.

Section Magnitude.

Variables p q : positive.

(** [2^(mag-1) <= p/q < 2^mag], with the powers of two brought to the
    side where their exponent is not negative. *)
Lemma mag_lower u v :
  0 <= u -> 0 <= v -> v - u = mag p q - 1 -> Zpos q * 2 ^ v <= Zpos p * 2 ^ u.
Proof.
  intros Hu Hv E. unfold mag in E.
  pose proof (Z.log2_spec (Zpos p) ltac:(lia)) as [La Ua].
  pose proof (Z.log2_spec (Zpos q) ltac:(lia)) as [Lb Ub].
  pose proof (Z.log2_nonneg (Zpos p)) as Ha.
  pose proof (Z.log2_nonneg (Zpos q)) as Hb.
  set (a := Z.log2 (Zpos p)) in *. set (b := Z.log2 (Zpos q)) in *.
  rewrite Z.pow_succ_r in Ua, Ub by assumption.
  assert (PA : 0 < 2 ^ a) by (apply Z.pow_pos_nonneg; lia).
  assert (PB : 0 < 2 ^ b) by (apply Z.pow_pos_nonneg; lia).
  assert (PU : 0 < 2 ^ u) by (apply Z.pow_pos_nonneg; lia).
  assert (PV : 0 < 2 ^ v) by (apply Z.pow_pos_nonneg; lia).
  destruct (Zpos q * 2 ^ a <=? Zpos p * 2 ^ b) eqn:T.
  - apply Z.leb_le in T.
    assert (X : 2 ^ v * 2 ^ b = 2 ^ u * 2 ^ a)
      by (rewrite <- !Z.pow_add_r by lia; f_equal; lia).
    nia.
  - apply Z.leb_gt in T.
    assert (X : 2 ^ v * (2 * 2 ^ b) = 2 ^ u * 2 ^ a).
    { rewrite <- (Z.pow_succ_r 2 b), <- !Z.pow_add_r by lia. f_equal. lia. }
    nia.
Qed.

Lemma mag_upper u v :
  0 <= u -> 0 <= v -> v - u = mag p q -> Zpos p * 2 ^ u < Zpos q * 2 ^ v.
Proof.
  intros Hu Hv E. unfold mag in E.
  pose proof (Z.log2_spec (Zpos p) ltac:(lia)) as [La Ua].
  pose proof (Z.log2_spec (Zpos q) ltac:(lia)) as [Lb Ub].
  pose proof (Z.log2_nonneg (Zpos p)) as Ha.
  pose proof (Z.log2_nonneg (Zpos q)) as Hb.
  set (a := Z.log2 (Zpos p)) in *. set (b := Z.log2 (Zpos q)) in *.
  rewrite Z.pow_succ_r in Ua, Ub by assumption.
  assert (PA : 0 < 2 ^ a) by (apply Z.pow_pos_nonneg; lia).
  assert (PB : 0 < 2 ^ b) by (apply Z.pow_pos_nonneg; lia).
  assert (PU : 0 < 2 ^ u) by (apply Z.pow_pos_nonneg; lia).
  assert (PV : 0 < 2 ^ v) by (apply Z.pow_pos_nonneg; lia).
  destruct (Zpos q * 2 ^ a <=? Zpos p * 2 ^ b) eqn:T.
  - apply Z.leb_le in T.
    assert (X : 2 ^ v * 2 ^ b = 2 ^ u * (2 * 2 ^ a)).
    { rewrite <- (Z.pow_succ_r 2 a), <- !Z.pow_add_r by lia. f_equal. lia. }
    nia.
  - apply Z.leb_gt in T.
    assert (X : 2 ^ v * 2 ^ b = 2 ^ u * 2 ^ a)
      by (rewrite <- !Z.pow_add_r by lia; f_equal; lia).
    nia.
Qed.

End Magnitude.

Lemma mag_mono p1 p2 q : (p1 <= p2)%positive -> mag p1 q <= mag p2 q.
Proof.
  intros H. destruct (Z_le_gt_dec (mag p1 q) (mag p2 q)) as [|G]; [assumption|].
  exfalso.
  set (K := Z.abs (mag p1 q) + Z.abs (mag p2 q) + 1).
  pose proof (mag_lower p1 q K (mag p1 q - 1 + K) ltac:(lia) ltac:(lia) ltac:(lia)) as L1.
  pose proof (mag_upper p2 q K (mag p2 q + K) ltac:(lia) ltac:(lia) ltac:(lia)) as U2.
  assert (P : 2 ^ (mag p2 q + K) <= 2 ^ (mag p1 q - 1 + K))
    by (apply Z.pow_le_mono_r; lia).
  assert (PK : 0 < 2 ^ K) by (apply Z.pow_pos_nonneg; lia).
  assert (Zpos p1 <= Zpos p2) by lia.
  nia.
Qed.

Section Mantissa.

Lemma cexp_min mg : -1074 <= cexp mg.
Proof. unfold cexp, prec, emax. lia. Qed.

Lemma cexp_mono m1 m2 : m1 <= m2 -> cexp m1 <= cexp m2.
Proof. unfold cexp. lia. Qed.

Lemma pow2_pos n : 0 <= n -> 0 < 2 ^ n.
Proof. intros. apply Z.pow_pos_nonneg; lia. Qed.

(** The mantissa as one quotient, whatever the sign of the exponent. *)
Lemma scaled_mantissa_eq p q c :
  -1074 <= c ->
  scaled_mantissa p q c
  = round_half_even (Zpos p * 2 ^ 1074) (Zpos q * 2 ^ (c + 1074)).
Proof.
  intros Hc. unfold scaled_mantissa.
  destruct (0 <=? c) eqn:S.
  - apply Z.leb_le in S. pose proof (pow2_pos c S).
    rewrite <- (round_half_even_scale (Zpos q * 2 ^ c) ltac:(lia) (2 ^ 1074) (Zpos p))
      by (apply pow2_pos; lia).
    f_equal; [ring|]. rewrite Z.pow_add_r by lia. ring.
  - apply Z.leb_gt in S.
    rewrite <- (round_half_even_scale (Zpos q) ltac:(lia) (2 ^ (c + 1074))
                  (Zpos p * 2 ^ (- c))) by (apply pow2_pos; lia).
    f_equal; [|ring].
    replace (2 ^ 1074) with (2 ^ (c + 1074) * 2 ^ (- c))
      by (rewrite <- Z.pow_add_r by lia; f_equal; lia).
    ring.
Qed.

Lemma scaled_mantissa_mono p1 p2 q c :
  (p1 <= p2)%positive -> -1074 <= c ->
  scaled_mantissa p1 q c <= scaled_mantissa p2 q c.
Proof.
  intros H Hc. rewrite !scaled_mantissa_eq by assumption.
  pose proof (pow2_pos (c + 1074) ltac:(lia)).
  apply round_half_even_mono; [lia|].
  apply Z.mul_le_mono_nonneg_r; [apply Z.pow_nonneg|]; lia.
Qed.

Lemma scaled_mantissa_nonneg p q c : -1074 <= c -> 0 <= scaled_mantissa p q c.
Proof.
  intros Hc. rewrite scaled_mantissa_eq by assumption.
  pose proof (pow2_pos (c + 1074) ltac:(lia)).
  apply round_half_even_lower; [lia|].
  pose proof (pow2_pos 1074 ltac:(lia)). lia.
Qed.

(** At the exponent of its magnitude a rational has at most 53 bits,
    and all 53 above the least exponent. *)
Lemma scaled_mantissa_upper p q :
  scaled_mantissa p q (cexp (mag p q)) <= 2 ^ 53.
Proof.
  pose proof (cexp_min (mag p q)) as Hc.
  rewrite scaled_mantissa_eq by assumption.
  set (c := cexp (mag p q)) in *.
  pose proof (pow2_pos (c + 1074) ltac:(lia)).
  apply round_half_even_upper; [lia|].
  set (K := Z.abs (mag p q) + 1).
  pose proof (mag_upper p q (1074 + K) (mag p q + 1074 + K)
                ltac:(lia) ltac:(lia) ltac:(lia)) as U.
  assert (G : mag p q <= c + 53) by (unfold c, cexp, prec; lia).
  assert (P : 2 ^ (mag p q + 1074 + K) <= 2 ^ (c + 53 + 1074 + K))
    by (apply Z.pow_le_mono_r; lia).
  replace (2 ^ (1074 + K)) with (2 ^ 1074 * 2 ^ K) in U
    by (rewrite <- Z.pow_add_r by lia; reflexivity).
  replace (2 ^ (c + 53 + 1074 + K)) with (2 ^ 53 * 2 ^ (c + 1074) * 2 ^ K) in P
    by (rewrite <- !Z.pow_add_r by lia; f_equal; lia).
  pose proof (pow2_pos K ltac:(lia)).
  pose proof (pow2_pos 1074 ltac:(lia)).
  pose proof (pow2_pos 53 ltac:(lia)).
  set (A := 2 ^ 1074) in *. set (B := 2 ^ (c + 1074)) in *.
  set (C := 2 ^ 53) in *. set (D := 2 ^ K) in *.
  set (E := 2 ^ (mag p q + 1074 + K)) in *.
  nia.
Qed.

Lemma scaled_mantissa_lower p q :
  -1074 < cexp (mag p q) ->
  2 ^ 52 <= scaled_mantissa p q (cexp (mag p q)).
Proof.
  intros Hc. rewrite scaled_mantissa_eq by lia.
  set (c := cexp (mag p q)) in *.
  pose proof (pow2_pos (c + 1074) ltac:(lia)).
  apply round_half_even_lower; [lia|].
  assert (G : mag p q - 1 = c + 52) by (unfold c, cexp, prec, emax in *; lia).
  pose proof (mag_lower p q 1074 (c + 52 + 1074) ltac:(lia) ltac:(lia) ltac:(lia)) as L.
  replace (2 ^ (c + 52 + 1074)) with (2 ^ 52 * 2 ^ (c + 1074)) in L
    by (rewrite <- Z.pow_add_r by lia; f_equal; lia).
  lia.
Qed.

End Mantissa.

(** Positive finite floats are ordered by exponent, then by mantissa. *)
Lemma le_finite_cases m1 e1 m2 e2 :
  e1 < e2 \/ (e1 = e2 /\ Zpos m1 <= Zpos m2) ->
  le (S754_finite false m1 e1) (S754_finite false m2 e2) = true.
Proof.
  intros [L|[-> L]]; unfold le, SFleb, SFcompare.
  - apply Z.compare_lt_iff in L. rewrite L. reflexivity.
  - rewrite Z.compare_refl.
    change (Pos.compare_cont Eq m1 m2) with (Pos.compare m1 m2).
    destruct (Pos.compare_spec m1 m2); try reflexivity. lia.
Qed.

(** The nearest float grows with the rational. *)
Lemma nearest_float_mono p1 p2 q :
  (p1 <= p2)%positive ->
  le (nearest_float false p1 q) (nearest_float false p2 q) = true.
Proof.
  intros H.
  pose proof (cexp_mono _ _ (mag_mono p1 p2 q H)) as Hc.
  pose proof (cexp_min (mag p1 q)) as Hm.
  pose proof (scaled_mantissa_upper p1 q) as U1.
  pose proof (scaled_mantissa_upper p2 q) as U2.
  pose proof (scaled_mantissa_nonneg p1 q _ (cexp_min (mag p1 q))) as N1.
  pose proof (scaled_mantissa_nonneg p2 q _ (cexp_min (mag p2 q))) as N2.
  assert (L2 : cexp (mag p1 q) < cexp (mag p2 q) ->
               2 ^ 52 <= scaled_mantissa p2 q (cexp (mag p2 q)))
    by (intros; apply scaled_mantissa_lower; lia).
  assert (E : cexp (mag p1 q) = cexp (mag p2 q) ->
              scaled_mantissa p1 q (cexp (mag p1 q))
              <= scaled_mantissa p2 q (cexp (mag p2 q))).
  { intros <-. now apply scaled_mantissa_mono. }
  unfold nearest_float.
  set (c1 := cexp (mag p1 q)) in *. set (c2 := cexp (mag p2 q)) in *.
  set (M1 := scaled_mantissa p1 q c1) in *. set (M2 := scaled_mantissa p2 q c2) in *.
  clearbody M1 M2 c1 c2.
  assert (P53 : 2 ^ 53 = 9007199254740992) by reflexivity.
  assert (P52 : 2 ^ 52 = 4503599627370496) by reflexivity.
  rewrite P53 in U1, U2. rewrite P52 in L2. clear P53 P52.
  replace (2 ^ prec) with 9007199254740992 by reflexivity.
  replace (2 ^ (prec - 1)) with 4503599627370496 by reflexivity.
  replace (emax - prec) with 971 by reflexivity.
  set (h := 4503599627370496%positive).
  change 4503599627370496 with (Zpos h) in *.
  change 9007199254740992 with (Zpos h~0) in *.
  clearbody h.
  destruct (Z.eqb_spec M1 (Zpos h~0)) as [X1|X1];
    destruct (Z.eqb_spec M2 (Zpos h~0)) as [X2|X2];
    destruct M1 as [|m1|m1]; destruct M2 as [|m2|m2]; try lia.
  all: repeat match goal with
      | |- context [ ?a <=? 971 ] => destruct (Z.leb_spec a 971)
      end.
  all: try reflexivity.
  all: try lia.
  all: apply le_finite_cases; lia.
Qed.
Section ValidFloats.

(** A positive number of [d] digits lies in [2^(d-1), 2^d). *)
Lemma digits2_pos_bounds m :
  2 ^ (Zpos (digits2_pos m) - 1) <= Zpos m < 2 ^ Zpos (digits2_pos m).
Proof.
  induction m as [m IH|m IH|]; cbn [digits2_pos].
  - rewrite Pos2Z.inj_succ.
    set (dg := Zpos (digits2_pos m)) in *.
    assert (0 < dg) by (unfold dg; lia).
    replace (Z.succ dg - 1) with (Z.succ (dg - 1)) by lia.
    rewrite (Z.pow_succ_r 2 (dg - 1)), (Z.pow_succ_r 2 dg) by lia. lia.
  - rewrite Pos2Z.inj_succ.
    set (dg := Zpos (digits2_pos m)) in *.
    assert (0 < dg) by (unfold dg; lia).
    replace (Z.succ dg - 1) with (Z.succ (dg - 1)) by lia.
    rewrite (Z.pow_succ_r 2 (dg - 1)), (Z.pow_succ_r 2 dg) by lia. lia.
  - cbv. split; congruence.
Qed.

(** The mantissa and exponent of a binary64 number: at most 53 bits,
    exactly 53 above the least exponent [-1074]. *)
Lemma valid_finite s m e :
  valid (S754_finite s m e) = true ->
  -1074 <= e /\ Zpos m < 2 ^ 53 /\ (-1074 < e -> 2 ^ 52 <= Zpos m).
Proof.
  unfold valid, valid_binary, bounded, canonical_mantissa, fexp, SpecFloat.emin.
  intros H. apply andb_true_iff in H as [H _]. apply Z.eqb_eq in H.
  unfold prec, emax in H.
  pose proof (digits2_pos_bounds m) as [L U].
  set (dg := Zpos (digits2_pos m)) in *.
  assert (dg <= 53) by lia.
  split; [lia|]. split.
  - eapply Z.lt_le_trans; [exact U|]. apply Z.pow_le_mono_r; lia.
  - intros G. assert (dg = 53) by lia. replace (dg - 1) with 52 in L by lia. exact L.
Qed.

(** The order of two positive binary64 numbers is the order of their
    values. *)
Lemma le_finite_value m1 e1 m2 e2 :
  valid (S754_finite false m1 e1) = true ->
  valid (S754_finite false m2 e2) = true ->
  le (S754_finite false m1 e1) (S754_finite false m2 e2) = true ->
  Zpos m1 * 2 ^ (e1 + 1074) <= Zpos m2 * 2 ^ (e2 + 1074).
Proof.
  intros V1 V2 H.
  apply valid_finite in V1 as (E1 & U1 & L1).
  apply valid_finite in V2 as (E2 & U2 & L2).
  unfold le, SFleb, SFcompare in H.
  destruct (Z.compare_spec e1 e2) as [->|G|G].
  - change (Pos.compare_cont Eq m1 m2) with (Pos.compare m1 m2) in H.
    destruct (Pos.compare_spec m1 m2); try discriminate;
      (apply Z.mul_le_mono_nonneg_r; [apply Z.pow_nonneg|]; lia).
  - specialize (L2 ltac:(lia)).
    replace (e2 + 1074) with ((e2 - e1 - 1) + 1 + (e1 + 1074)) by lia.
    rewrite (Z.pow_add_r 2 (e2 - e1 - 1 + 1) (e1 + 1074)) by lia.
    rewrite (Z.pow_add_r 2 (e2 - e1 - 1) 1) by lia.
    pose proof (pow2_pos (e1 + 1074) ltac:(lia)).
    pose proof (pow2_pos (e2 - e1 - 1) ltac:(lia)).
    change (2 ^ 1) with 2.
    assert (P53 : 2 ^ 53 = 2 * 2 ^ 52) by reflexivity. rewrite P53 in U1.
    set (A := 2 ^ (e1 + 1074)) in *. set (B := 2 ^ (e2 - e1 - 1)) in *.
    set (C := 2 ^ 52) in *.
    assert (0 < C) by (apply pow2_pos; lia).
    clearbody A B C.
    assert (S1 : Zpos m1 * A <= 2 * Zpos m2 * A) by nia.
    assert (S2 : 2 * Zpos m2 * A * 1 <= 2 * Zpos m2 * A * B)
      by (apply Z.mul_le_mono_nonneg_l; nia).
    nia.
  - discriminate.
Qed.

Lemma hundredths_eq m e :
  -1074 <= e ->
  hundredths m e = round_half_even (100 * (Zpos m * 2 ^ (e + 1074))) (2 ^ 1074).
Proof.
  intros He. unfold hundredths.
  pose proof (pow2_pos 1074 ltac:(lia)) as P.
  destruct (0 <=? e) eqn:S.
  - apply Z.leb_le in S.
    rewrite <- (round_half_even_scale 1 ltac:(lia) (2 ^ 1074) (100 * Zpos m * 2 ^ e))
      by assumption.
    f_equal; try ring. rewrite Z.pow_add_r by lia. ring.
  - apply Z.leb_gt in S.
    rewrite <- (round_half_even_scale (2 ^ (- e)) (pow2_pos (- e) ltac:(lia))
                  (2 ^ (e + 1074)) (100 * Zpos m)) by (apply pow2_pos; lia).
    f_equal; try ring. rewrite <- Z.pow_add_r by lia. f_equal. lia.
Qed.

Lemma hundredths_nonneg m e : -1074 <= e -> 0 <= hundredths m e.
Proof.
  intros He. rewrite hundredths_eq by assumption.
  pose proof (pow2_pos 1074 ltac:(lia)). pose proof (pow2_pos (e + 1074) ltac:(lia)).
  apply round_half_even_lower; [assumption|]. nia.
Qed.

(** Rounding to two decimals keeps the order of positive binary64
    numbers. *)
Lemma round2_finite_mono m1 e1 m2 e2 :
  valid (S754_finite false m1 e1) = true ->
  valid (S754_finite false m2 e2) = true ->
  le (S754_finite false m1 e1) (S754_finite false m2 e2) = true ->
  le (round2 (S754_finite false m1 e1)) (round2 (S754_finite false m2 e2)) = true.
Proof.
  intros V1 V2 H.
  pose proof (le_finite_value _ _ _ _ V1 V2 H) as Hv.
  apply valid_finite in V1 as (E1 & _). apply valid_finite in V2 as (E2 & _).
  assert (Hn : hundredths m1 e1 <= hundredths m2 e2).
  { rewrite !hundredths_eq by assumption.
    apply round_half_even_mono; [apply pow2_pos|]; lia. }
  pose proof (hundredths_nonneg m1 e1 E1) as N1.
  pose proof (round2_cases (S754_finite false m2 e2)) as C2.
  unfold round2 in *.
  destruct (hundredths m1 e1) as [|n1|n1]; [| |lia].
  - destruct C2 as [-> |[-> |(m' & e' & ->)]]; reflexivity.
  - destruct (hundredths m2 e2) as [|n2|n2]; [lia| |lia].
    apply nearest_float_mono. lia.
Qed.

(** A value that passes the filter is, once rounded, at least the
    rounded minimum. *)
Lemma round2_kept_above_minimum min q :
  valid min = true -> valid q = true ->
  isnan min = false -> isnan q = false ->
  lt q (of_int 0) = false -> lt q min = false ->
  le (round2 min) (round2 q) = true.
Proof.
  intros Vm Vq Nm Nq H0 Hm.
  assert (Hle : le min q = true) by (rewrite le_negb_lt, Hm by assumption; reflexivity).
  destruct q as [sq|sq| |sq mq eq]; try discriminate.
  - (* q is a zero *)
    pose proof (round2_cases min) as C.
    destruct min as [sm|sm| |sm mm em]; try discriminate; try (rewrite C; reflexivity).
    + rewrite C. destruct sm; [reflexivity|discriminate].
    + destruct sm; [|discriminate].
      destruct C as [-> |[-> |(m' & e' & ->)]]; reflexivity.
  - (* q is an infinity *)
    destruct sq; [discriminate|].
    pose proof (round2_cases min) as C.
    destruct min as [sm|sm| |sm mm em]; try discriminate; try (rewrite C).
    + reflexivity.
    + destruct sm; reflexivity.
    + destruct C as [-> |[-> |(m' & e' & ->)]]; destruct sm; reflexivity.
  - (* q is finite *)
    destruct sq; [discriminate|].
    pose proof (round2_cases (S754_finite false mq eq)) as Cq.
    destruct min as [sm|sm| |sm mm em]; try discriminate.
    + change (round2 (S754_zero sm)) with (S754_zero sm).
      destruct Cq as [-> |[-> |(m' & e' & ->)]]; reflexivity.
    + destruct sm; [|discriminate].
      change (round2 (S754_infinity true)) with (S754_infinity true).
      destruct Cq as [-> |[-> |(m' & e' & ->)]]; reflexivity.
    + destruct sm.
      * pose proof (round2_cases (S754_finite true mm em)) as Cm.
        destruct Cm as [-> |[-> |(m'' & e'' & ->)]];
          destruct Cq as [-> |[-> |(m' & e' & ->)]]; reflexivity.
      * now apply round2_finite_mono.
Qed.

End ValidFloats.

(* ===================================================================== *)
(** * Strings: [split] and [int] *)
(* ===================================================================== *)

Section Strings.

Import PyStr.

Lemma append_cons x (a b : string) : String x a +:+ b = String x (a +:+ b).
Proof. reflexivity. Qed.

Lemma append_assoc (a b c : string) : (a +:+ b) +:+ c = a +:+ (b +:+ c).
Proof.
  induction a as [|x a IH]; [reflexivity|].
  rewrite !append_cons. now rewrite IH.
Qed.

Lemma append_empty_r (a : string) : a +:+ "" = a.
Proof.
  induction a as [|x a IH]; [reflexivity|].
  rewrite append_cons. now rewrite IH.
Qed.

(** The first piece of a split begins with what has been read. *)
Lemma split_go_head sep skip cur s :
  exists a l, split_go sep skip cur s = (cur +:+ a) :: l.
Proof.
  revert skip cur. induction s as [|c s IH]; intros skip cur; cbn [split_go].
  - exists "", []. rewrite append_empty_r. reflexivity.
  - destruct skip as [|k].
    + destruct (startswith (String c s) sep).
      * exists "", (split_go sep (String.length sep - 1) "" s).
        rewrite append_empty_r. reflexivity.
      * destruct (IH 0%nat (cur +:+ String c "")) as (a & l & E).
        exists (String c a), l. rewrite E, append_assoc. reflexivity.
    + apply IH.
Qed.

(** Up to the first [".t"], the string is the first piece. *)
Lemma split_dot_t_first pre cur s :
  contains ".t" pre = false ->
  split_go ".t" 0 cur (pre +:+ ".t" +:+ s) = (cur +:+ pre) :: split_go ".t" 0 "" s.
Proof.
  revert cur. induction pre as [|c pre IH]; intros cur Hpre.
  - rewrite append_empty_r. simpl. destruct s; reflexivity.
  - simpl in Hpre. apply orb_false_iff in Hpre as [Hp Hc].
    change (String c pre +:+ ".t" +:+ s) with (String c (pre +:+ ".t" +:+ s)).
    cbn [split_go].
    replace (startswith (String c (pre +:+ ".t" +:+ s)) ".t") with false.
    + rewrite IH by assumption. rewrite append_assoc. reflexivity.
    + symmetry. cbn [startswith] in Hp |- *.
      destruct (Ascii.eqb c "."); [|reflexivity].
      destruct pre as [|c' pre]; [reflexivity|].
      rewrite append_cons. cbn [startswith andb] in Hp |- *.
      destruct (Ascii.eqb c' "t"); [discriminate|reflexivity].
Qed.

Lemma is_digit_cases d :
  is_digit d = true ->
  d ∈ ["0"; "1"; "2"; "3"; "4"; "5"; "6"; "7"; "8"; "9"]%char.
Proof.
  destruct d as [[] [] [] [] [] [] [] []]; intros H; try discriminate H;
    set_solver.
Qed.

Lemma int_two_digits d1 d2 :
  is_digit d1 = true -> is_digit d2 = true ->
  int (String d1 (String d2 "")) = Ok (10 * digit_value d1 + digit_value d2).
Proof.
  intros H1 H2. apply is_digit_cases in H1. apply is_digit_cases in H2.
  repeat (apply elem_of_cons in H1 as [->|H1]);
    try (apply elem_of_nil in H1; contradiction);
    repeat (apply elem_of_cons in H2 as [->|H2]);
    try (apply elem_of_nil in H2; contradiction); reflexivity.
Qed.

(** A key whose first [".t"] is followed by two digits has them as its
    hour. *)
Lemma parse_hour_two_digits pre d1 d2 rest :
  contains ".t" pre = false ->
  is_digit d1 = true -> is_digit d2 = true ->
  parse_hour (pre +:+ ".t" +:+ String d1 (String d2 rest))
  = Ok (10 * digit_value d1 + digit_value d2).
Proof.
  intros Hpre H1 H2. unfold parse_hour, split.
  rewrite split_dot_t_first by assumption.
  assert (E : exists a l, split_go ".t" 0 "" (String d1 (String d2 rest))
                          = String d1 (String d2 a) :: l).
  { assert (N1 : startswith (String d1 (String d2 rest)) ".t" = false).
    { apply is_digit_cases in H1.
      repeat (apply elem_of_cons in H1 as [->|H1]);
        try (apply elem_of_nil in H1; contradiction); reflexivity. }
    assert (N2 : startswith (String d2 rest) ".t" = false).
    { apply is_digit_cases in H2.
      repeat (apply elem_of_cons in H2 as [->|H2]);
        try (apply elem_of_nil in H2; contradiction); reflexivity. }
    cbn [split_go]. rewrite N1. cbn [split_go]. rewrite N2.
    destruct (split_go_head ".t" 0 (("" +:+ String d1 "") +:+ String d2 "") rest)
      as (a & l & E).
    exists a, l. rewrite E. reflexivity. }
  destruct E as (a & l & ->).
  change (int (take 2 (String d1 (String d2 a))) = Ok (10 * digit_value d1 + digit_value d2)).
  replace (take 2 (String d1 (String d2 a))) with (String d1 (String d2 ""))
    by (destruct a; reflexivity).
  now apply int_two_digits.
Qed.

End Strings.

(* ===================================================================== *)
(** * The Locator *)
(* ===================================================================== *)

Section Locator.

Lemma channel_files_spec contents k :
  k ∈ channel_files contents <->
  k ∈ contents /\ PyStr.contains "channel_rt" k = true /\ PyStr.endswith k ".nc" = true.
Proof.
  unfold channel_files. rewrite list_elem_of_filter, andb_true_iff. tauto.
Qed.

(** The first key of the keys sorted in descending order is the
    greatest of them. *)
Lemma sort_reverse_head l latest rest :
  sort_reverse l = latest :: rest ->
  latest ∈ l /\ forall k, k ∈ l -> String.le k latest.
Proof.
  intros E. unfold sort_reverse in E.
  assert (P : merge_sort (flip String.le) l ≡ₚ l) by apply merge_sort_Permutation.
  assert (S : StronglySorted (flip String.le) (merge_sort (flip String.le) l)).
  { apply StronglySorted_merge_sort.
    - intros a b c Hab Hbc. unfold flip in *. etransitivity; eassumption.
    - intros a b. unfold flip. destruct (total String.le a b); auto. }
  rewrite E in P, S. split.
  - rewrite <- P. left.
  - intros k Hk. rewrite <- P in Hk. apply elem_of_cons in Hk as [->|Hk].
    + reflexivity.
    + apply StronglySorted_inv in S as [_ F].
      rewrite Forall_forall in F. now apply F.
Qed.

Lemma sort_reverse_nil l : sort_reverse l = [] -> l = [].
Proof.
  intros E. apply Permutation_nil_r. rewrite <- E.
  unfold sort_reverse. symmetry. apply merge_sort_Permutation.
Qed.

(** A listing is the first page of the partition in ascending order of
    keys, and the whole partition when that has no more keys than the
    page. *)
Lemma listing_first_page s3 prefix n contents :
  list_objects_v2 s3 prefix n = Ok (Some contents) ->
  contents = take n (merge_sort String.le
                       (filter (fun k => PyStr.startswith k prefix = true)
                          (object_keys s3))).
Proof.
  unfold list_objects_v2. destruct (listing_fails s3 prefix); [discriminate|].
  destruct (take n _); [discriminate|]. now intros [= <-].
Qed.

Lemma listing_whole_partition s3 prefix n contents :
  list_objects_v2 s3 prefix n = Ok (Some contents) ->
  (length (filter (fun k => PyStr.startswith k prefix = true) (object_keys s3)) <= n)%nat ->
  forall k, k ∈ contents <->
            k ∈ object_keys s3 /\ PyStr.startswith k prefix = true.
Proof.
  intros H Hn k. apply listing_first_page in H. subst contents.
  rewrite take_ge by (rewrite merge_sort_Permutation; exact Hn).
  rewrite merge_sort_Permutation, list_elem_of_filter. tauto.
Qed.

(** What the [try] block does with a listing that has channel-routing
    files: everything hangs on the hour of the greatest key. *)
Lemma try_date_latest s3 date contents latest rest :
  list_objects_v2 s3 (partition_prefix date) 100 = Ok (Some contents) ->
  sort_reverse (channel_files contents) = latest :: rest ->
  try_date s3 date =
    (h ← parse_hour latest; ref_time ← replace_hour date h;
     Ok (Some ("s3://" +:+ NWM_BUCKET +:+ "/" +:+ latest, ref_time))).
Proof. intros Hl Hs. unfold try_date. rewrite Hl. simpl. rewrite Hs. reflexivity. Qed.

Lemma candidate_date_today now : candidate_date now 0 = Ok (midnight now).
Proof. reflexivity. Qed.

(** From the second day of a month on, [day - 1] is yesterday. *)
Lemma candidate_date_yesterday now :
  valid_datetime now = true -> 1 < day now ->
  candidate_date now 1 = Ok (previous_day now).
Proof.
  intros Hv Hd. unfold candidate_date, replace_day, previous_day, valid_datetime in *.
  simpl. repeat (apply andb_true_iff in Hv as [Hv ?]).
  replace (1 <? day now) with true by (symmetry; apply Z.ltb_lt; lia).
  replace (1 <=? day now - 1) with true by (symmetry; apply Z.leb_le; lia).
  replace (day now - 1 <=? days_in_month (year now) (month now)) with true
    by (symmetry; apply Z.leb_le; apply Z.leb_le in H4; lia).
  reflexivity.
Qed.

(** On the first day of a month, [day - 1] is no day at all. *)
Lemma candidate_date_first_day now :
  day now = 1 -> candidate_date now 1 = Raise ValueError.
Proof.
  intros Hd. unfold candidate_date, replace_day. simpl. rewrite Hd. reflexivity.
Qed.

(** X1.  Apart from the first day of a month, the search returns the file of
    the first date that has one, and raises its own error when neither
    date has. *)
Lemma get_latest_nwm_url_after_first_day s3 now :
  valid_datetime now = true -> 1 < day now ->
  get_latest_nwm_url s3 now =
    match found s3 (midnight now), found s3 (previous_day now) with
    | Some r, _ => Ok r
    | None, Some r => Ok r
    | None, None => Raise (RuntimeError "Could not find recent NWM data")
    end.
Proof.
  intros Hv Hd. unfold get_latest_nwm_url, scan_days, found.
  rewrite candidate_date_today, (candidate_date_yesterday now Hv Hd). simpl.
  destruct (try_date s3 (midnight now)) as [[r|]|e];
    destruct (try_date s3 (previous_day now)) as [[r'|]|e']; reflexivity.
Qed.

(** X6.  On the first day of a month the search ends in [ValueError] as soon
    as today has no file. *)
Lemma get_latest_nwm_url_first_day s3 now :
  day now = 1 -> found s3 (midnight now) = None ->
  get_latest_nwm_url s3 now = Raise ValueError.
Proof.
  intros Hd Hf. unfold get_latest_nwm_url, scan_days, found in *.
  rewrite candidate_date_today, (candidate_date_first_day now Hd). simpl.
  destruct (try_date s3 (midnight now)) as [[r|]|e]; try reflexivity; discriminate.
Qed.

End Locator.

(** C2.  Whenever the listing of a date has channel-routing keys (those
    containing ["channel_rt"] and ending in [".nc"]), the key the Locator
    takes is the greatest of them in lexicographic order, and the outcome
    for that date is decided by the hour parsed from that key; the hour
    is the two digits after the first [".t"]; and for the keys of 09, 12
    and 06 hours of one date the Locator returns the 12 hours key with
    reference hour 12. *)
Theorem locator_selects_greatest_key :
  (forall s3 date contents,
     list_objects_v2 s3 (partition_prefix date) 100 = Ok (Some contents) ->
     channel_files contents <> [] ->
     exists latest,
       head (sort_reverse (channel_files contents)) = Some latest /\
       (latest ∈ contents /\ PyStr.contains "channel_rt" latest = true
        /\ PyStr.endswith latest ".nc" = true) /\
       (forall k, k ∈ contents -> PyStr.contains "channel_rt" k = true ->
                  PyStr.endswith k ".nc" = true -> String.le k latest) /\
       try_date s3 date =
         (h ← parse_hour latest; ref_time ← replace_hour date h;
          Ok (Some ("s3://" +:+ NWM_BUCKET +:+ "/" +:+ latest, ref_time)))) /\
  (forall pre d1 d2 rest,
     PyStr.contains ".t" pre = false ->
     PyStr.is_digit d1 = true -> PyStr.is_digit d2 = true ->
     parse_hour (pre +:+ ".t" +:+ String d1 (String d2 rest))
     = Ok (10 * PyStr.digit_value d1 + PyStr.digit_value d2)) /\
  get_latest_nwm_url (bucket_of three_hours) jan_15
  = Ok ("s3://noaa-nwm-pds/" +:+ nwm_key "20240115" "12" "channel_rt" "00",
        mk_datetime 2024 1 15 12 0 0 0).
Proof.
  split; [|split].
  - intros s3 date contents Hl Hne.
    destruct (sort_reverse (channel_files contents)) as [|latest rest] eqn:Hs.
    { apply sort_reverse_nil in Hs. contradiction. }
    exists latest. destruct (sort_reverse_head _ _ _ Hs) as [Hin Hmax].
    split; [reflexivity|]. split; [now apply channel_files_spec|]. split.
    + intros k Hk Hc He. apply Hmax. now apply channel_files_spec.
    + now apply (try_date_latest s3 date contents latest rest).
  - apply parse_hour_two_digits.
  - vm_compute. reflexivity.
Qed.

Lemma locator_selects_greatest_key_witness :
  let listed := merge_sort String.le three_hours in
  exists latest,
    head (sort_reverse (channel_files listed)) = Some latest /\
    (latest ∈ listed /\ PyStr.contains "channel_rt" latest = true
     /\ PyStr.endswith latest ".nc" = true) /\
    (forall k, k ∈ listed -> PyStr.contains "channel_rt" k = true ->
               PyStr.endswith k ".nc" = true -> String.le k latest) /\
    try_date (bucket_of three_hours) jan_15 =
      (h ← parse_hour latest; ref_time ← replace_hour jan_15 h;
       Ok (Some ("s3://" +:+ NWM_BUCKET +:+ "/" +:+ latest, ref_time))).
Proof.
  apply (proj1 locator_selects_greatest_key (bucket_of three_hours) jan_15
           (merge_sort String.le three_hours)).
  - vm_compute. reflexivity.
  - vm_compute. discriminate.
Defined.

(** C3.  On 1 March 2024 and on 1 January 2025 the first candidate is
    the day itself, and computing the second raises [ValueError] where
    the previous day (29 February, 31 December) is meant; with no file
    for the day itself the Locator ends in that [ValueError]. *)
Theorem second_candidate_first_of_month :
  candidate_date mar_1 0 = Ok (mk_datetime 2024 3 1 0 0 0 0) /\
  candidate_date mar_1 1 = Raise ValueError /\
  previous_day mar_1 = mk_datetime 2024 2 29 0 0 0 0 /\
  candidate_date new_year 1 = Raise ValueError /\
  previous_day new_year = mk_datetime 2024 12 31 0 0 0 0 /\
  get_latest_nwm_url (bucket_of []) mar_1 = Raise ValueError.
Proof. repeat split; vm_compute; reflexivity. Qed.

(** C4.  With a whole day of 288 objects in the partition, the one page
    of 100 keys ends in hour 08: the Locator returns the file of 08
    hours, while the greatest channel-routing key of the partition is
    that of 23 hours. *)
Theorem listing_stops_at_100_keys :
  let partition := full_day "20240115" in
  let greatest := nwm_key "20240115" "23" "channel_rt" "02" in
  let selected := nwm_key "20240115" "08" "channel_rt" "02" in
  length partition = 288%nat /\
  list_objects_v2 (bucket_of partition) (partition_prefix jan_15) 100
    = Ok (Some (take 100 (merge_sort String.le partition))) /\
  get_latest_nwm_url (bucket_of partition) jan_15
    = Ok ("s3://noaa-nwm-pds/" +:+ selected, mk_datetime 2024 1 15 8 0 0 0) /\
  head (sort_reverse (channel_files partition)) = Some greatest /\
  String.le greatest selected = false.
Proof. repeat split; vm_compute; reflexivity. Qed.

(** C5.  On 1 March 2024, with the listing of that day failing and a
    valid file under 29 February, the Locator does not go on to the
    second candidate: it ends in [ValueError]; and with an empty bucket
    it ends in [ValueError] too, not in its own not-found error. *)
Theorem locator_raises_before_second_candidate :
  list_objects_v2 leap_day_bucket (partition_prefix (midnight mar_1)) 100
    = Raise ClientError /\
  try_date leap_day_bucket (previous_day mar_1)
    = Ok (Some ("s3://noaa-nwm-pds/" +:+ nwm_key "20240229" "23" "channel_rt" "00",
                mk_datetime 2024 2 29 23 0 0 0)) /\
  get_latest_nwm_url leap_day_bucket mar_1 = Raise ValueError /\
  get_latest_nwm_url (bucket_of []) mar_1 = Raise ValueError /\
  get_latest_nwm_url (bucket_of []) (mk_datetime 2024 3 2 5 0 0 0)
    = Raise (RuntimeError "Could not find recent NWM data").
Proof. repeat split; vm_compute; reflexivity. Qed.

(* ===================================================================== *)
(** * The Extractor *)
(* ===================================================================== *)

Section Extractor.

Implicit Types (sites : gmap string float) (row : Z * float).

Lemma excluded_true_iff min q :
  excluded min q = true <->
  isnan q = true \/ lt q (of_int 0) = true \/ lt q min = true.
Proof. unfold excluded. rewrite !orb_true_iff. tauto. Qed.

(** The loop is a filter followed by a fold over the rows. *)
Lemma process_rows_fold comids : forall i flows min sites skipped,
  (length comids + i)%nat = length flows ->
  process_rows comids i flows min sites skipped =
    Ok (foldl add_row sites
          (filter (fun row => excluded min row.2 = false) (zip comids (drop i flows))),
        (skipped + length (filter (fun row => excluded min row.2 = true)
                             (zip comids (drop i flows))))%nat).
Proof.
  induction comids as [|c comids IH]; intros i flows min sites skipped Hlen.
  - simpl. rewrite Nat.add_0_r. reflexivity.
  - simpl in Hlen. cbn [process_rows].
    destruct (lookup_lt_is_Some_2 flows i ltac:(lia)) as [q Hq].
    rewrite Hq, (drop_S _ _ _ Hq). cbn [zip zip_with].
    assert (Hex : excluded min q = (isnan q || lt q (of_int 0)) || lt q min)
      by reflexivity.
    destruct (isnan q || lt q (of_int 0)) eqn:E1; [|destruct (lt q min) eqn:E2];
      simpl in Hex.
    + rewrite filter_cons_False by (simpl; congruence).
      rewrite filter_cons_True by (simpl; congruence).
      rewrite IH by lia. simpl. do 2 f_equal. lia.
    + rewrite filter_cons_False by (simpl; congruence).
      rewrite filter_cons_True by (simpl; congruence).
      rewrite IH by lia. simpl. do 2 f_equal. lia.
    + rewrite filter_cons_True by (simpl; congruence).
      rewrite filter_cons_False by (simpl; congruence).
      rewrite IH by lia. reflexivity.
Qed.

(** An entry of the folded dictionary was there before or comes from
    a row. *)
Lemma foldl_add_row_Some l : forall sites k v,
  foldl add_row sites l !! k = Some v ->
  sites !! k = Some v \/
  exists c q, (c, q) ∈ l /\ k = pretty c /\ v = round2 q.
Proof.
  induction l as [|[c q] l IH]; intros sites k v H; simpl in H; [now left|].
  apply IH in H as [H|(c' & q' & Hin & -> & ->)].
  - unfold add_row in H. simpl in H.
    destruct (decide (pretty c = k)) as [<-|Hne].
    + rewrite lookup_insert_eq in H. injection H as <-.
      right. exists c, q. split; [left|auto].
    + rewrite lookup_insert_ne in H by assumption. now left.
  - right. exists c', q'. split; [now right|auto].
Qed.

(** Rows of other identifiers leave a key alone. *)
Lemma foldl_add_row_other l : forall sites c,
  c ∉ l.*1 -> foldl add_row sites l !! pretty c = sites !! pretty c.
Proof.
  induction l as [|[c' q'] l IH]; intros sites c Hc; simpl; [reflexivity|].
  simpl in Hc. apply not_elem_of_cons in Hc as [Hne Hc].
  rewrite IH by assumption. unfold add_row. simpl.
  apply lookup_insert_ne. intros E. apply Hne. symmetry.
  now apply (inj pretty).
Qed.

(** With one row per identifier, each row has its entry. *)
Lemma foldl_add_row_lookup l : forall sites c q,
  NoDup l.*1 -> (c, q) ∈ l ->
  foldl add_row sites l !! pretty c = Some (round2 q).
Proof.
  induction l as [|[c' q'] l IH]; intros sites c q Hnd Hin.
  - now apply elem_of_nil in Hin.
  - simpl in Hnd. apply NoDup_cons in Hnd as [Hc' Hnd].
    apply elem_of_cons in Hin as [E|Hin].
    + injection E as -> ->. simpl.
      rewrite foldl_add_row_other by assumption.
      unfold add_row. simpl. apply lookup_insert_eq.
    + simpl. now apply IH.
Qed.

(** Whatever the identifiers, a kept row leaves an entry under its key. *)
Lemma foldl_add_row_is_Some l : forall sites c q,
  (c, q) ∈ l -> is_Some (foldl add_row sites l !! pretty c).
Proof.
  assert (Hmono : forall l sites k, is_Some (sites !! k) ->
                                    is_Some (foldl add_row sites l !! k)).
  { clear. induction l as [|[c q] l IH]; intros sites k Hk; simpl; [assumption|].
    apply IH. unfold add_row. simpl. rewrite lookup_insert_is_Some'. now right. }
  induction l as [|[c' q'] l IH]; intros sites c q Hin.
  - now apply elem_of_nil in Hin.
  - apply elem_of_cons in Hin as [E|Hin]; simpl.
    + injection E as -> ->. apply Hmono. unfold add_row. simpl.
      rewrite lookup_insert_eq. eauto.
    + now apply (IH _ c q).
Qed.

Lemma kept_rows_NoDup min comids flows :
  NoDup comids -> (length comids <= length flows)%nat ->
  NoDup (filter (fun row => excluded min row.2 = false) (zip comids flows)).*1.
Proof.
  intros Hnd Hlen. eapply sublist_NoDup; [|apply fmap_sublist, sublist_filter].
  now rewrite fst_zip.
Qed.

End Extractor.

(** C1.  On the four rows of the example and the minimum 10.0 the
    Extractor returns exactly [{"103": 15.0}] and counts 3 skipped rows.
    For arrays of equal length, the skipped rows are those whose
    streamflow is NaN, negative or below the minimum, the dictionary is
    built from the other rows in order, each setting
    [str(identifier)] to [round(value, 2)]: every entry comes from such
    a row, every such row has an entry under its key, and that entry is
    its own rounded value when identifiers are not repeated. *)
Theorem process_nwm_data_filters_rows :
  process_nwm_data four_rows DEFAULT_MIN_STREAMFLOW
    = Ok ({[ "103"%string := decimal 150 10 ]}, 3%nat) /\
  forall ds min,
    length (feature_id ds) = length (streamflow ds) ->
    let all := rows (feature_id ds) (streamflow ds) in
    let kept := filter (fun row => excluded min row.2 = false) all in
    let data := foldl add_row ∅ kept in
    process_nwm_data ds min
      = Ok (data, length (filter (fun row => excluded min row.2 = true) all)) /\
    (forall q, excluded min q = true <->
               isnan q = true \/ lt q (of_int 0) = true \/ lt q min = true) /\
    (forall k v, data !! k = Some v ->
       exists c q, (c, q) ∈ all /\ excluded min q = false /\
                   k = pretty c /\ v = round2 q) /\
    (forall c q, (c, q) ∈ all -> excluded min q = false ->
       is_Some (data !! pretty c)) /\
    (NoDup (feature_id ds) ->
       forall c q, (c, q) ∈ all -> excluded min q = false ->
         data !! pretty c = Some (round2 q)).
Proof.
  split; [vm_compute; reflexivity|].
  intros ds min Hlen all kept data. split; [|split; [|split; [|split]]].
  - unfold process_nwm_data. rewrite process_rows_fold by lia.
    rewrite drop_0. reflexivity.
  - apply excluded_true_iff.
  - intros k v H. apply foldl_add_row_Some in H as [H|(c & q & Hin & -> & ->)].
    + rewrite lookup_empty in H. discriminate.
    + apply list_elem_of_filter in Hin as [Hk Hin]. exists c, q. auto.
  - intros c q Hin Hk. apply (foldl_add_row_is_Some kept ∅ c q).
    apply list_elem_of_filter. auto.
  - intros Hnd c q Hin Hk. apply foldl_add_row_lookup.
    + apply kept_rows_NoDup; [assumption|lia].
    + apply list_elem_of_filter. auto.
Qed.

Lemma process_nwm_data_filters_rows_witness :
  process_nwm_data four_rows (decimal 50 10)
  = Ok (foldl add_row ∅
          (filter (fun row => excluded (decimal 50 10) row.2 = false)
             (rows (feature_id four_rows) (streamflow four_rows))),
        length (filter (fun row => excluded (decimal 50 10) row.2 = true)
                  (rows (feature_id four_rows) (streamflow four_rows)))).
Proof.
  apply (proj2 process_nwm_data_filters_rows four_rows (decimal 50 10)).
  reflexivity.
Defined.

(* ===================================================================== *)
(** * The values of the dictionary *)
(* ===================================================================== *)

Section StoredValues.

(** An entry of the dictionary the loop returns was there before, or
    is the rounding of a streamflow that passed the filter. *)
Lemma process_rows_entries comids : forall i flows min data0 skipped0 data skipped,
  process_rows comids i flows min data0 skipped0 = Ok (data, skipped) ->
  forall k v, data !! k = Some v ->
    data0 !! k = Some v \/
    exists q, q ∈ flows /\ excluded min q = false /\ v = round2 q.
Proof.
  induction comids as [|c comids IH]; intros i flows min data0 skipped0 data skipped H k v Hk.
  - injection H as <- <-. now left.
  - cbn [process_rows] in H.
    destruct (flows !! i) as [q|] eqn:Hq; [|discriminate].
    assert (Hin : q ∈ flows) by (eapply list_elem_of_lookup_2; eassumption).
    assert (Hex : excluded min q = (isnan q || lt q (of_int 0)) || lt q min)
      by reflexivity.
    destruct (isnan q || lt q (of_int 0)) eqn:E1; [|destruct (lt q min) eqn:E2].
    + eapply IH; eassumption.
    + eapply IH; eassumption.
    + destruct (IH _ _ _ _ _ _ _ H k v Hk) as [H0|H0]; [|now right].
      destruct (decide (pretty c = k)) as [<-|Hne].
      * rewrite lookup_insert_eq in H0. injection H0 as <-. right. eauto.
      * rewrite lookup_insert_ne in H0 by assumption. now left.
Qed.

End StoredValues.

(** C6, as the code has it.  The filter is applied to the raw value and
    the rounded value is stored: with a minimum of 10.004 the value
    10.004 is kept and stored as 10.0, which is below the minimum. *)
Lemma stored_value_below_minimum :
  process_nwm_data one_row (decimal 10004 1000)
    = Ok ({[ "1"%string := decimal 100 10 ]}, 0%nat) /\
  round2 (decimal 10004 1000) = decimal 100 10 /\
  le (decimal 10004 1000) (decimal 100 10) = false /\
  lt (decimal 100 10) (decimal 10004 1000) = true.
Proof. repeat split; vm_compute; reflexivity. Qed.

(** C6, amended.  For a minimum that is not NaN and binary64 values,
    every value of the dictionary is the two-decimal rounding of a
    streamflow of the file that is not NaN, not negative and at least
    the minimum; it is itself not NaN, not negative, and at least the
    rounded minimum, hence at least the minimum when the minimum has two
    decimals, as the default 10.0 has.  The dictionary starts empty:
    it has no entry that does not come from a row of the file. *)
Theorem stored_values_above_rounded_minimum :
  forall ds min data skipped,
    isnan min = false -> valid min = true ->
    Forall (fun q => valid q = true) (streamflow ds) ->
    process_nwm_data ds min = Ok (data, skipped) ->
    (forall k v, data !! k = Some v ->
       (exists q, q ∈ streamflow ds /\ v = round2 q /\
                  isnan q = false /\ le (of_int 0) q = true /\ le min q = true) /\
       isnan v = false /\ lt v (of_int 0) = false /\ le (round2 min) v = true) /\
    (round2 min = min -> forall k v, data !! k = Some v -> le min v = true) /\
    round2 DEFAULT_MIN_STREAMFLOW = DEFAULT_MIN_STREAMFLOW /\
    process_nwm_data {| feature_id := []; streamflow := [] |} min = Ok (∅, 0%nat).
Proof.
  intros ds min data skipped Nm Vm Vf H.
  assert (Hall : forall k v, data !! k = Some v ->
     (exists q, q ∈ streamflow ds /\ v = round2 q /\
                isnan q = false /\ le (of_int 0) q = true /\ le min q = true) /\
     isnan v = false /\ lt v (of_int 0) = false /\ le (round2 min) v = true).
  { intros k v Hk.
    destruct (process_rows_entries _ _ _ _ _ _ _ _ H k v Hk) as [H0|(q & Hin & Hex & ->)].
    { rewrite lookup_empty in H0. discriminate. }
    unfold excluded in Hex.
    apply orb_false_iff in Hex as [Hex Hmin]. apply orb_false_iff in Hex as [Hnan Hneg].
    rewrite Forall_forall in Vf. specialize (Vf q Hin).
    split.
    - exists q. repeat split; try assumption.
      + rewrite le_negb_lt, Hneg by auto. reflexivity.
      + rewrite le_negb_lt, Hmin by auto. reflexivity.
    - split; [now apply round2_not_nan|]. split; [now apply round2_not_negative|].
      now apply round2_kept_above_minimum. }
  split; [exact Hall|]. split; [|split; reflexivity].
  intros Hfix k v Hk. destruct (Hall k v Hk) as (_ & _ & _ & Hle).
  now rewrite Hfix in Hle.
Qed.

Lemma stored_values_above_rounded_minimum_witness :
  le DEFAULT_MIN_STREAMFLOW (decimal 150 10) = true.
Proof.
  apply (proj1 (proj2 (stored_values_above_rounded_minimum
                         four_rows DEFAULT_MIN_STREAMFLOW
                         {[ "103"%string := decimal 150 10 ]} 3%nat
                         eq_refl eq_refl
                         ltac:(repeat constructor) ltac:(vm_compute; reflexivity)))
           eq_refl "103"%string).
  reflexivity.
Defined.

(* ===================================================================== *)
(** * Publication and clean-up *)
(* ===================================================================== *)

Section Run.

Variable cfg : config.

(** Only a real upload sends a PUT request. *)
Lemma upload_dry_run_puts env data ref_time w :
  puts (upload_to_s3 cfg env data ref_time true w).2 = puts w.
Proof. reflexivity. Qed.

Lemma download_puts env s3_url w :
  puts (download_nwm_file env s3_url w).2 = puts w.
Proof.
  unfold download_nwm_file.
  destruct (https_url_of s3_url) as [url|e]; [|reflexivity].
  destruct (http_get env url) as [|status header body complete]; [reflexivity|].
  destruct ((400 <=? status) && (status <? 600)); [reflexivity|].
  destruct (total_size header); [|reflexivity].
  destruct complete; reflexivity.
Qed.

Lemma rmdir_puts d w : puts (rmdir d w).2 = puts w.
Proof. unfold rmdir. case_decide; reflexivity. Qed.

Lemma cleanup_puts env nc_path w : puts (cleanup env nc_path w).2 = puts w.
Proof.
  unfold cleanup. destruct (fs w !! nc_path); [|reflexivity].
  now rewrite rmdir_puts.
Qed.

Lemma process_and_upload_dry_run_puts env nc_path ref_time w :
  puts (process_and_upload cfg env nc_path ref_time true w).2 = puts w.
Proof.
  unfold process_and_upload.
  destruct (ds ← open_dataset w nc_path; process_nwm_data ds DEFAULT_MIN_STREAMFLOW)
    as [[data n]|e]; reflexivity.
Qed.

(** A dry run leaves the list of PUT requests as it found it, however
    it ends. *)
Lemma main_dry_run_puts env w : puts (main cfg env true w).2 = puts w.
Proof.
  unfold main.
  destruct (get_latest_nwm_url (noaa env) (clock env)) as [[s3_url ref_time]|e];
    [|reflexivity].
  pose proof (download_puts env s3_url w) as Hd.
  destruct (download_nwm_file env s3_url w) as [[nc_path|e] w1]; [|exact Hd].
  pose proof (process_and_upload_dry_run_puts env nc_path ref_time w1) as Hp.
  destruct (process_and_upload cfg env nc_path ref_time true w1) as [r w2].
  pose proof (cleanup_puts env nc_path w2) as Hc.
  destruct (cleanup env nc_path w2) as [[[]|e] w3]; simpl in *; congruence.
Qed.

End Run.

Section SameInput.

Variable cfg : config.

Lemma contains_append sub a b :
  PyStr.startswith b sub = true -> PyStr.contains sub (a +:+ b) = true.
Proof.
  intros H. induction a as [|c a IH].
  - destruct b; simpl; rewrite H; reflexivity.
  - change (String c a +:+ b) with (String c (a +:+ b)).
    cbn [PyStr.contains]. rewrite IH. apply orb_true_r.
Qed.

(** The file in the scratch directory is not the local document. *)
Lemma scratch_file_not_local d : d +:+ "/nwm_channel_rt.nc" <> LOCAL_PATH.
Proof.
  intros E.
  assert (H : PyStr.contains "/" (d +:+ "/nwm_channel_rt.nc") = true)
    by (apply contains_append; reflexivity).
  rewrite E in H. discriminate H.
Qed.

Lemma download_same_input env env' s3_url w :
  http_get env' = http_get env -> mkdtemp env' = mkdtemp env ->
  download_nwm_file env' s3_url w = download_nwm_file env s3_url w.
Proof. intros E1 E2. unfold download_nwm_file. rewrite E1, E2. reflexivity. Qed.

Lemma download_path env s3_url w nc_path w1 :
  download_nwm_file env s3_url w = (Ok nc_path, w1) ->
  nc_path = mkdtemp env +:+ "/nwm_channel_rt.nc".
Proof.
  unfold download_nwm_file. intros H.
  destruct (https_url_of s3_url) as [url|e]; [|discriminate].
  destruct (http_get env url) as [|status header body complete]; [discriminate|].
  destruct ((400 <=? status) && (status <? 600)); [discriminate|].
  destruct (total_size header); [|discriminate].
  destruct complete; [|discriminate].
  now injection H as <- _.
Qed.

(** On the same file and reference time, the document a dry run of
    [main] leaves in the local file has the [sites] of the document a
    real run publishes. *)
Lemma main_dry_run_same_sites env env' w path w_dry url w_real :
  noaa env' = noaa env -> clock env' = clock env ->
  http_get env' = http_get env -> mkdtemp env' = mkdtemp env ->
  mkdtemp env <> LOCAL_PATH ->
  main cfg env true w = (Ok path, w_dry) ->
  main cfg env' false w = (Ok url, w_real) ->
  exists doc req doc',
    fs w_dry !! LOCAL_PATH = Some (File (Json Indented doc)) /\
    puts w_real = puts w ++ [req] /\
    put_body req = Json Compact doc' /\
    sites doc' = sites doc /\ reference_time doc' = reference_time doc.
Proof.
  intros En Ec Eh Em Hne Hdry Hreal. unfold main in Hdry, Hreal.
  rewrite En, Ec in Hreal.
  destruct (get_latest_nwm_url (noaa env) (clock env)) as [[s3_url ref_time]|e];
    [|discriminate].
  rewrite (download_same_input env env' s3_url w Eh Em) in Hreal.
  pose proof (download_puts env s3_url w) as Hp1.
  destruct (download_nwm_file env s3_url w) as [[nc_path|e] w1] eqn:Hd; [|discriminate].
  apply download_path in Hd. simpl in Hp1.
  unfold process_and_upload in Hdry, Hreal.
  destruct (ds ← open_dataset w1 nc_path; process_nwm_data ds DEFAULT_MIN_STREAMFLOW)
    as [[data n]|e].
  - unfold upload_to_s3 in Hdry, Hreal.
    destruct (put_fails env').
    { destruct (cleanup env' nc_path w1) as [[[]|e] w3]; discriminate. }
    match type of Hreal with
    | context [cleanup env' nc_path ?w2] =>
        pose proof (cleanup_puts env' nc_path w2) as Hp2;
        destruct (cleanup env' nc_path w2) as [[[]|e] w3]; [|discriminate]
    end.
    injection Hreal as _ <-. simpl in Hp2.
    match type of Hdry with
    | context [cleanup env nc_path ?x] => set (w2 := x) in *
    end.
    assert (Hdoc : fs w2 !! LOCAL_PATH =
                   Some (File (Json Indented
                     {| generated_at := upload_clock env; reference_time := ref_time;
                        site_count := size data; sites := data |})))
      by apply lookup_insert_eq.
    assert (Hkeep : forall w4 r, cleanup env nc_path w2 = (Ok r, w4) ->
              fs w4 !! LOCAL_PATH = fs w2 !! LOCAL_PATH).
    { intros w4 r Hc. unfold cleanup, rmdir, parent_of in Hc.
      destruct (fs w2 !! nc_path); [|now injection Hc as _ <-].
      case_decide; [discriminate|]. injection Hc as _ <-. cbn [fs].
      rewrite !lookup_delete_ne; [reflexivity| |congruence].
      subst nc_path. apply scratch_file_not_local. }
    destruct (cleanup env nc_path w2) as [[r|e] w4] eqn:Hc; [|discriminate].
    injection Hdry as _ <-.
    eexists _, _, _. split; [rewrite (Hkeep w4 r eq_refl); exact Hdoc|].
    split; [rewrite Hp2, Hp1; reflexivity|]. simpl. auto.
  - destruct (cleanup env nc_path w1) as [[[]|e'] w3]; discriminate.
Qed.

End SameInput.

(** C8.  A dry run of [upload_to_s3] sends no PUT request and writes the
    document to the local file, and the [sites] of that document are
    those of the document a real upload of the same data and reference
    time publishes; a dry run of the whole of [main] sends no PUT
    request either, and on the same input file and reference time it
    leaves a local document with the [sites] a real run publishes. *)
Theorem dry_run_writes_what_is_published :
  forall cfg env env' data ref_time w,
    let dry := upload_to_s3 cfg env data ref_time true w in
    puts dry.2 = puts w /\
    dry.1 = Ok LOCAL_PATH /\
    (exists doc,
       fs dry.2 !! LOCAL_PATH = Some (File (Json Indented doc)) /\
       sites doc = data /\ reference_time doc = ref_time /\
       forall url w', upload_to_s3 cfg env' data ref_time false w = (Ok url, w') ->
         exists req doc',
           puts w' = puts w ++ [req] /\
           put_body req = Json Compact doc' /\
           sites doc' = sites doc /\ reference_time doc' = reference_time doc) /\
    puts (main cfg env true w).2 = puts w /\
    (noaa env' = noaa env -> clock env' = clock env ->
     http_get env' = http_get env -> mkdtemp env' = mkdtemp env ->
     mkdtemp env <> LOCAL_PATH ->
     forall path w_dry url w_real,
       main cfg env true w = (Ok path, w_dry) ->
       main cfg env' false w = (Ok url, w_real) ->
       exists doc req doc',
         fs w_dry !! LOCAL_PATH = Some (File (Json Indented doc)) /\
         puts w_real = puts w ++ [req] /\
         put_body req = Json Compact doc' /\
         sites doc' = sites doc /\ reference_time doc' = reference_time doc).
Proof.
  intros cfg env env' data ref_time w dry.
  split; [reflexivity|]. split; [reflexivity|]. split; [|split].
  - eexists. split; [apply lookup_insert_eq|]. split; [reflexivity|].
    split; [reflexivity|].
    intros url w' H. unfold upload_to_s3 in H.
    destruct (put_fails env'); [discriminate|].
    injection H as _ <-. eexists _, _. simpl. eauto.
  - apply main_dry_run_puts.
  - intros En Ec Eh Em Hne path w_dry url w_real Hdry Hreal.
    now apply (main_dry_run_same_sites cfg env env' w path w_dry url w_real).
Qed.

Lemma dry_run_writes_what_is_published_witness :
  let env := sample_env (Response 200 None (NetCDF four_rows) true) in
  exists doc req doc',
    fs (main sample_config env true empty_world).2 !! LOCAL_PATH
      = Some (File (Json Indented doc)) /\
    puts (main sample_config env false empty_world).2 = puts empty_world ++ [req] /\
    put_body req = Json Compact doc' /\
    sites doc' = sites doc /\ reference_time doc' = reference_time doc.
Proof.
  intros env.
  assert (Hdry : main sample_config env true empty_world
                 = (Ok LOCAL_PATH, (main sample_config env true empty_world).2)).
  { rewrite (surjective_pairing (main sample_config env true empty_world)) at 1.
    f_equal; vm_compute; reflexivity. }
  assert (Hreal : main sample_config env false empty_world
                  = (Ok "https://nwm-streamflow-data.s3.us-east-1.amazonaws.com/live/current_velocity.json"%string,
                     (main sample_config env false empty_world).2)).
  { rewrite (surjective_pairing (main sample_config env false empty_world)) at 1.
    f_equal; vm_compute; reflexivity. }
  exact (proj2 (proj2 (proj2 (proj2
           (dry_run_writes_what_is_published sample_config env env ∅ jan_15 empty_world))))
           eq_refl eq_refl eq_refl eq_refl ltac:(discriminate)
           _ _ _ _ Hdry Hreal).
Defined.

Section Cleanup.

Variable cfg : config.

Lemma startswith_length s p :
  PyStr.startswith s p = true -> (String.length p <= String.length s)%nat.
Proof.
  revert s. induction p as [|b p IH]; intros s H; simpl; [lia|].
  destruct s as [|a s]; simpl in H; [discriminate|].
  apply andb_true_iff in H as [_ H]. apply IH in H. simpl. lia.
Qed.

Lemma append_length (a b : string) :
  String.length (a +:+ b) = (String.length a + String.length b)%nat.
Proof. induction a as [|x a IH]; simpl; [reflexivity|]. now rewrite IH. Qed.

(** A directory is not inside itself. *)
Lemma not_inside_itself d : PyStr.startswith d (d +:+ "/") = false.
Proof.
  destruct (PyStr.startswith d (d +:+ "/")) eqn:E; [|reflexivity].
  apply startswith_length in E. rewrite append_length in E. simpl in E. lia.
Qed.

(** A path without ["/"] is inside no directory. *)
Lemma not_inside_without_slash s d :
  PyStr.contains "/" s = false -> PyStr.startswith s (d +:+ "/") = false.
Proof.
  revert s. induction d as [|b d IH]; intros s H.
  - destruct s as [|a s]; [reflexivity|]. simpl in H |- *.
    apply orb_false_iff in H as [H _]. exact H.
  - destruct s as [|a s]; [reflexivity|].
    change (String b d +:+ "/") with (String b (d +:+ "/")).
    cbn [PyStr.startswith]. rewrite IH; [apply andb_false_r|].
    simpl in H. now apply orb_false_iff in H as [_ H].
Qed.

(** What the [try] block leaves in the file system: nothing new, or
    the local document of a dry run. *)
Lemma process_and_upload_fs env nc_path ref_time dry_run w :
  let w2 := (process_and_upload cfg env nc_path ref_time dry_run w).2 in
  fs w2 = fs w \/ exists c, fs w2 = <[LOCAL_PATH := c]> (fs w).
Proof.
  unfold process_and_upload.
  destruct (ds ← open_dataset w nc_path; process_nwm_data ds DEFAULT_MIN_STREAMFLOW)
    as [[data n]|e]; [|now left].
  unfold upload_to_s3. destruct dry_run; simpl.
  - right. eauto.
  - destruct (put_fails env); now left.
Qed.

(** X14.  Once the download has returned, the file and its scratch
    directory are gone when [main] ends, whether the processing and the
    upload succeed or raise.  The scratch directory is new: nothing
    is inside it before the run. *)
Lemma main_cleans_up_after_download env dry_run w s3_url ref_time nc_path w1 :
  get_latest_nwm_url (noaa env) (clock env) = Ok (s3_url, ref_time) ->
  download_nwm_file env s3_url w = (Ok nc_path, w1) ->
  (forall p, p ∈ dom (fs w) -> PyStr.startswith p (mkdtemp env +:+ "/") = false) ->
  let w' := (main cfg env dry_run w).2 in
  fs w' !! nc_path = None /\ fs w' !! mkdtemp env = None.
Proof.
  intros Hl Hd Hnew. unfold main. rewrite Hl, Hd.
  assert (Hw1 : nc_path = mkdtemp env +:+ "/nwm_channel_rt.nc" /\
                exists body, fs w1 = <[nc_path := File body]> (<[mkdtemp env := Dir]> (fs w))).
  { unfold download_nwm_file in Hd.
    destruct (https_url_of s3_url) as [u|e]; [|discriminate].
    destruct (http_get env u) as [|status cl body complete]; [discriminate|].
    destruct ((400 <=? status) && (status <? 600)); [discriminate|].
    destruct (total_size cl); [|discriminate].
    destruct complete; [|discriminate].
    injection Hd as <- <-. split; [reflexivity|]. simpl. eauto. }
  destruct Hw1 as [Hnc [body Hfs1]].
  pose proof (process_and_upload_fs env nc_path ref_time dry_run w1) as Hfs2.
  destruct (process_and_upload cfg env nc_path ref_time dry_run w1) as [r w2].
  simpl in Hfs2.
  assert (Hin : forall p, p ∈ dom (fs w2) ->
                  p = nc_path \/ PyStr.startswith p (mkdtemp env +:+ "/") = false).
  { intros p Hp. apply elem_of_dom in Hp.
    assert (Hp1 : is_Some (fs w1 !! p) \/ p = LOCAL_PATH).
    { destruct Hfs2 as [E|[c E]]; rewrite E in Hp; [now left|].
      apply lookup_insert_is_Some in Hp as [<-|[_ Hp]]; auto. }
    destruct Hp1 as [Hp1| ->].
    - rewrite Hfs1 in Hp1.
      apply lookup_insert_is_Some in Hp1 as [<-|[_ Hp1]]; [now left|].
      apply lookup_insert_is_Some in Hp1 as [<-|[_ Hp1]].
      + right. apply not_inside_itself.
      + right. apply Hnew. now apply elem_of_dom.
    - right. now apply not_inside_without_slash. }
  assert (Hsome : is_Some (fs w2 !! nc_path)).
  { destruct Hfs2 as [E|[c E]]; rewrite E.
    - rewrite Hfs1, lookup_insert_eq. eauto.
    - apply lookup_insert_is_Some'. right. rewrite Hfs1, lookup_insert_eq. eauto. }
  unfold cleanup. destruct Hsome as [n Hn]. rewrite Hn.
  unfold rmdir, parent_of. cbn [fs puts]. case_decide as Hex.
  - exfalso. destruct Hex as (p & Hp & Hstart).
    apply elem_of_dom in Hp. apply lookup_delete_is_Some in Hp as [Hne Hp].
    destruct (Hin p) as [E|E]; [now apply elem_of_dom|congruence|congruence].
  - cbn [snd fs]. split.
    + destruct (decide (mkdtemp env = nc_path)) as [->|Hne].
      * apply lookup_delete_eq.
      * rewrite lookup_delete_ne by assumption. apply lookup_delete_eq.
    + apply lookup_delete_eq.
Qed.

End Cleanup.

(** C9.  When the download request is answered 404, or the body stops
    short, [main] ends with the exception of [download_nwm_file] and the
    scratch directory made for the download is still there, in the second
    case with the partial file in it; it is only when the download
    returns that the file and the directory are removed on the way
    out, as for a file that does not open. *)
Theorem download_failure_keeps_scratch_directory :
  let not_found := sample_env (Response 404 None Unreadable true) in
  let cut_short := sample_env (Response 200 (Some "1048576"%string) Unreadable false) in
  let bad_file := sample_env (Response 200 None Unreadable true) in
  (main sample_config not_found false empty_world).1 = Raise RequestException /\
  fs (main sample_config not_found false empty_world).2 !! mkdtemp not_found
    = Some Dir /\
  (main sample_config cut_short false empty_world).1 = Raise RequestException /\
  fs (main sample_config cut_short false empty_world).2 !! mkdtemp cut_short
    = Some Dir /\
  fs (main sample_config cut_short false empty_world).2
    !! (mkdtemp cut_short +:+ "/nwm_channel_rt.nc") = Some (File Unreadable) /\
  (main sample_config bad_file false empty_world).1 = Raise ValueError /\
  fs (main sample_config bad_file false empty_world).2 = ∅.
Proof. repeat split; vm_compute; reflexivity. Qed.

(* ===================================================================== *)
(** * More on the Locator *)
(* ===================================================================== *)

Section LocatorResults.

(** X2.  A file found for today is returned whatever the day of the
    month: the second candidate is not computed. *)
Lemma today_wins s3 now r :
  found s3 (midnight now) = Some r -> get_latest_nwm_url s3 now = Ok r.
Proof.
  unfold found, get_latest_nwm_url, scan_days. rewrite candidate_date_today.
  cbn [mbind result_bind].
  destruct (try_date s3 (midnight now)) as [[r'|]|e]; intros [= <-]. reflexivity.
Qed.

(** The keys of a listing have the prefix asked for. *)
Lemma listing_has_prefix s3 prefix n contents k :
  list_objects_v2 s3 prefix n = Ok (Some contents) -> k ∈ contents ->
  k ∈ object_keys s3 /\ PyStr.startswith k prefix = true.
Proof.
  intros H Hk. apply listing_first_page in H. subst contents.
  apply (subseteq_take n) in Hk. rewrite merge_sort_Permutation in Hk.
  now apply list_elem_of_filter in Hk as [? ?].
Qed.

(** What one date yields: a channel-routing key of its listing, and
    the date at a whole hour. *)
Lemma try_date_result s3 date url ref_time :
  try_date s3 date = Ok (Some (url, ref_time)) ->
  exists key h,
    url = "s3://noaa-nwm-pds/" +:+ key /\
    key ∈ object_keys s3 /\
    PyStr.startswith key (partition_prefix date) = true /\
    PyStr.contains "channel_rt" key = true /\ PyStr.endswith key ".nc" = true /\
    parse_hour key = Ok h /\ 0 <= h <= 23 /\
    ref_time = mk_datetime (year date) (month date) (day date) h
                 (minute date) (second date) (microsecond date).
Proof.
  unfold try_date. intros H.
  destruct (list_objects_v2 s3 (partition_prefix date) 100) as [[contents|]|e] eqn:Hl;
    try discriminate.
  cbn [mbind result_bind] in H.
  destruct (sort_reverse (channel_files contents)) as [|latest rest] eqn:Hs;
    [discriminate|].
  destruct (sort_reverse_head _ _ _ Hs) as [Hin _].
  apply channel_files_spec in Hin as (Hin & Hc & He).
  destruct (listing_has_prefix _ _ _ _ _ Hl Hin) as [Hk Hp].
  destruct (parse_hour latest) as [h|e] eqn:Hh; [|discriminate].
  cbn [mbind result_bind] in H. unfold replace_hour in H.
  destruct ((0 <=? h) && (h <=? 23)) eqn:Hr; [|discriminate].
  cbn [mbind result_bind] in H. injection H as <- <-.
  apply andb_true_iff in Hr as [H0 H23].
  apply Z.leb_le in H0. apply Z.leb_le in H23.
  exists latest, h. repeat split; auto.
Qed.

Lemma second_candidate_shape now date :
  candidate_date now 1 = Ok date ->
  date = mk_datetime (year now) (month now) (day now - 1) 0 0 0 0 /\ 1 <= day now - 1.
Proof.
  unfold candidate_date, replace_day. cbn [midnight day year month].
  change (1 =? 0) with false. cbv iota.
  destruct ((1 <=? day now - 1) && (day now - 1 <=? days_in_month (year now) (month now)))
    eqn:Hd; [|discriminate].
  intros [= <-]. apply andb_true_iff in Hd as [Hd _]. apply Z.leb_le in Hd.
  split; [reflexivity|assumption].
Qed.

(** X3.  Whatever the Locator returns is the URL of a channel-routing
    object of the bucket, under the partition of today or of the day
    numbered one less in the same month, with a reference time on that
    date at a whole hour between 0 and 23. *)
Lemma get_latest_nwm_url_result s3 now url ref_time :
  get_latest_nwm_url s3 now = Ok (url, ref_time) ->
  exists key h d,
    (d = day now \/ (d = day now - 1 /\ 1 <= d)) /\
    url = "s3://noaa-nwm-pds/" +:+ key /\
    key ∈ object_keys s3 /\
    PyStr.startswith key
      (partition_prefix (mk_datetime (year now) (month now) d 0 0 0 0)) = true /\
    PyStr.contains "channel_rt" key = true /\ PyStr.endswith key ".nc" = true /\
    parse_hour key = Ok h /\ 0 <= h <= 23 /\
    ref_time = mk_datetime (year now) (month now) d h 0 0 0.
Proof.
  unfold get_latest_nwm_url, scan_days. rewrite candidate_date_today.
  cbn [mbind result_bind]. intros H.
  assert (Hsecond :
    (date ← candidate_date now 1;
     match try_date s3 date with
     | Ok (Some found) => Ok found
     | _ => Raise (RuntimeError "Could not find recent NWM data")
     end) = Ok (url, ref_time) ->
    exists key h d,
      (d = day now \/ (d = day now - 1 /\ 1 <= d)) /\
      url = "s3://noaa-nwm-pds/" +:+ key /\
      key ∈ object_keys s3 /\
      PyStr.startswith key
        (partition_prefix (mk_datetime (year now) (month now) d 0 0 0 0)) = true /\
      PyStr.contains "channel_rt" key = true /\ PyStr.endswith key ".nc" = true /\
      parse_hour key = Ok h /\ 0 <= h <= 23 /\
      ref_time = mk_datetime (year now) (month now) d h 0 0 0).
  { intros H2. destruct (candidate_date now 1) as [date|e] eqn:Hc; [|discriminate].
    apply second_candidate_shape in Hc as [-> Hd]. cbn [mbind result_bind] in H2.
    match type of H2 with
    | context [try_date s3 ?date] =>
        destruct (try_date s3 date) as [[[u r]|]|e'] eqn:H1; try discriminate
    end.
    injection H2 as -> ->.
    apply try_date_result in H1 as (key & h & -> & ? & ? & ? & ? & ? & ? & ->).
    exists key, h, (day now - 1).
    split; [right; split; [reflexivity|assumption]|]. repeat split; auto; lia. }
  destruct (try_date s3 (midnight now)) as [[[u r]|]|e] eqn:H0.
  - injection H as -> ->.
    apply try_date_result in H0 as (key & h & -> & ? & ? & ? & ? & ? & ? & ->).
    exists key, h, (day now). split; [now left|]. repeat split; auto; lia.
  - apply Hsecond.
    destruct (candidate_date now 1) as [date|e']; [|exact H].
    cbn [mbind result_bind] in H |- *.
    destruct (try_date s3 date) as [[f|]|e']; exact H.
  - apply Hsecond.
    destruct (candidate_date now 1) as [date|e']; [|exact H].
    cbn [mbind result_bind] in H |- *.
    destruct (try_date s3 date) as [[f|]|e']; exact H.
Qed.

(** X4.  Only the greatest channel-routing key of a date is tried: when
    its hour does not parse, or is not an hour of the day, the date
    yields nothing, whatever its other keys are. *)
Lemma unreadable_hour_discards_date s3 date contents latest rest :
  list_objects_v2 s3 (partition_prefix date) 100 = Ok (Some contents) ->
  sort_reverse (channel_files contents) = latest :: rest ->
  (forall h, parse_hour latest = Ok h -> h < 0 \/ 23 < h) ->
  found s3 date = None.
Proof.
  intros Hl Hs Hh. unfold found.
  rewrite (try_date_latest s3 date contents latest rest Hl Hs).
  destruct (parse_hour latest) as [h|e]; [|reflexivity].
  cbn [mbind result_bind]. unfold replace_hour.
  replace ((0 <=? h) && (h <=? 23)) with false; [reflexivity|].
  symmetry. apply andb_false_iff.
  destruct (Hh h eq_refl); [left; apply Z.leb_gt|right; apply Z.leb_gt]; lia.
Qed.

End LocatorResults.

Section LookBack.

Lemma compare_append_l a b c :
  String.compare (a +:+ b) (a +:+ c) = String.compare b c.
Proof.
  induction a as [|x a IH]; [reflexivity|].
  rewrite !append_cons. cbn [String.compare].
  unfold Ascii.compare. rewrite N.compare_refl. exact IH.
Qed.

Lemma contains_append_r sub a b :
  PyStr.contains sub b = true -> PyStr.contains sub (a +:+ b) = true.
Proof.
  intros H. induction a as [|x a IH]; [exact H|].
  rewrite append_cons. cbn [PyStr.contains]. rewrite IH. apply orb_true_r.
Qed.

Lemma endswith_append_r suffix a b :
  PyStr.endswith b suffix = true -> PyStr.endswith (a +:+ b) suffix = true.
Proof.
  intros H. induction a as [|x a IH]; [exact H|].
  rewrite append_cons. cbn [PyStr.endswith]. rewrite IH. apply orb_true_r.
Qed.

(** Every key of the NOAA naming scheme for the product
    ["channel_rt"] passes the filter of the Locator. *)
Lemma nwm_key_is_channel_file d hh tm :
  PyStr.contains "channel_rt" (nwm_key d hh "channel_rt" tm) = true /\
  PyStr.endswith (nwm_key d hh "channel_rt" tm) ".nc" = true.
Proof.
  unfold nwm_key. split.
  - do 5 apply contains_append_r.
    destruct tm; reflexivity.
  - do 8 apply endswith_append_r. reflexivity.
Qed.

(** The file of look-back step 00 sorts below that of step 02. *)
Lemma tm00_below_tm02 d hh product :
  String.le (nwm_key d hh product "02") (nwm_key d hh product "00") -> False.
Proof.
  unfold String.le, String.leb, nwm_key.
  rewrite !compare_append_l. cbn. auto.
Qed.

(** X5.  When the listing of a date holds the file of look-back step
    02 of some hour, the Locator does not return the file of step 00
    of that hour. *)
Lemma locator_passes_over_tm00 s3 date contents d hh url ref_time :
  list_objects_v2 s3 (partition_prefix date) 100 = Ok (Some contents) ->
  nwm_key d hh "channel_rt" "02" ∈ contents ->
  try_date s3 date = Ok (Some (url, ref_time)) ->
  url <> "s3://noaa-nwm-pds/" +:+ nwm_key d hh "channel_rt" "00".
Proof.
  intros Hl Hin Ht Hurl.
  destruct (sort_reverse (channel_files contents)) as [|latest rest] eqn:Hs.
  { unfold try_date in Ht. rewrite Hl in Ht. cbn [mbind result_bind] in Ht.
    rewrite Hs in Ht. discriminate. }
  rewrite (try_date_latest s3 date contents latest rest Hl Hs) in Ht.
  destruct (parse_hour latest) as [h|e]; [|discriminate].
  cbn [mbind result_bind] in Ht.
  destruct (replace_hour date h) as [r|e]; [|discriminate].
  cbn [mbind result_bind] in Ht. injection Ht as Hu _.
  rewrite Hurl in Hu.
  change ("s3://" +:+ NWM_BUCKET +:+ "/" +:+ latest)
    with ("s3://noaa-nwm-pds/" +:+ latest) in Hu.
  apply (inj (String.append "s3://noaa-nwm-pds/")) in Hu. subst latest.
  destruct (sort_reverse_head _ _ _ Hs) as [_ Hmax].
  apply (tm00_below_tm02 d hh "channel_rt"). apply Hmax.
  apply channel_files_spec. split; [assumption|]. apply nwm_key_is_channel_file.
Qed.

End LookBack.

Lemma get_latest_nwm_url_after_first_day_witness :
  get_latest_nwm_url (bucket_of three_hours) jan_15 =
    match found (bucket_of three_hours) (midnight jan_15),
          found (bucket_of three_hours) (previous_day jan_15) with
    | Some r, _ => Ok r
    | None, Some r => Ok r
    | None, None => Raise (RuntimeError "Could not find recent NWM data")
    end.
Proof.
  apply (get_latest_nwm_url_after_first_day (bucket_of three_hours) jan_15).
  - reflexivity.
  - simpl. lia.
Defined.

Lemma today_wins_witness :
  get_latest_nwm_url (bucket_of three_hours) jan_15
  = Ok ("s3://noaa-nwm-pds/" +:+ nwm_key "20240115" "12" "channel_rt" "00",
        mk_datetime 2024 1 15 12 0 0 0).
Proof.
  apply (today_wins (bucket_of three_hours) jan_15). vm_compute. reflexivity.
Defined.

Lemma get_latest_nwm_url_result_witness :
  exists key h d,
    (d = day jan_15 \/ (d = day jan_15 - 1 /\ 1 <= d)) /\
    "s3://noaa-nwm-pds/" +:+ nwm_key "20240115" "12" "channel_rt" "00"
      = "s3://noaa-nwm-pds/" +:+ key /\
    key ∈ object_keys (bucket_of three_hours) /\
    PyStr.startswith key
      (partition_prefix (mk_datetime (year jan_15) (month jan_15) d 0 0 0 0)) = true /\
    PyStr.contains "channel_rt" key = true /\ PyStr.endswith key ".nc" = true /\
    parse_hour key = Ok h /\ 0 <= h <= 23 /\
    mk_datetime 2024 1 15 12 0 0 0
      = mk_datetime (year jan_15) (month jan_15) d h 0 0 0.
Proof.
  apply (get_latest_nwm_url_result (bucket_of three_hours) jan_15).
  vm_compute. reflexivity.
Defined.

Lemma unreadable_hour_discards_date_witness :
  found (bucket_of unreadable_hour) jan_15 = None.
Proof.
  apply (unreadable_hour_discards_date (bucket_of unreadable_hour) jan_15
           (merge_sort String.le unreadable_hour)
           (nwm_key "20240115" "xx" "channel_rt" "00")
           [nwm_key "20240115" "12" "channel_rt" "00"]).
  - vm_compute. reflexivity.
  - vm_compute. reflexivity.
  - intros h H. vm_compute in H. discriminate H.
Defined.

Lemma locator_passes_over_tm00_witness :
  "s3://noaa-nwm-pds/" +:+ nwm_key "20240115" "08" "channel_rt" "02"
  <> "s3://noaa-nwm-pds/" +:+ nwm_key "20240115" "08" "channel_rt" "00".
Proof.
  apply (locator_passes_over_tm00 (bucket_of (full_day "20240115")) (midnight jan_15)
           (take 100 (merge_sort String.le (full_day "20240115")))
           "20240115" "08" _ (mk_datetime 2024 1 15 8 0 0 0)).
  - vm_compute. reflexivity.
  - apply (list_elem_of_lookup_2 _ 98%nat). vm_compute. reflexivity.
  - vm_compute. reflexivity.
Defined.

(* ===================================================================== *)
(** * More on the download *)
(* ===================================================================== *)

Section Download.

(** A string without ["s3://"] is left as it is. *)
Lemma remove_scheme_id s :
  PyStr.contains "s3://" s = false -> remove_scheme 0 s = s.
Proof.
  induction s as [|c s IH]; intros H; [reflexivity|].
  cbn [PyStr.contains] in H. apply orb_false_iff in H as [Hp Hc].
  cbn [remove_scheme]. rewrite Hp, IH by assumption. reflexivity.
Qed.

Lemma split_once_no_slash s cur rest :
  PyStr.contains "/" s = false ->
  split_once (s +:+ String "/" rest) cur = [cur +:+ s; rest].
Proof.
  revert cur. induction s as [|c s IH]; intros cur H.
  - cbn. now rewrite append_empty_r.
  - rewrite append_cons. cbn [split_once].
    cbn [PyStr.contains PyStr.startswith] in H.
    apply orb_false_iff in H as [Hc Hs]. rewrite andb_true_r in Hc.
    rewrite Hc, IH by assumption. now rewrite append_assoc.
Qed.

(** The URL of the download for a key of the NOAA bucket. *)
Lemma https_url_of_key key :
  https_url_of ("s3://noaa-nwm-pds/" +:+ key)
  = Ok ("https://noaa-nwm-pds.s3.amazonaws.com/" +:+ remove_scheme 0 key).
Proof.
  unfold https_url_of.
  assert (E : remove_scheme 0 ("s3://noaa-nwm-pds/" +:+ key)
              = "noaa-nwm-pds" +:+ String "/" (remove_scheme 0 key)).
  { destruct key as [|c key]; [reflexivity|].
    cbv [String.append]. cbn [remove_scheme PyStr.startswith Ascii.eqb Bool.eqb andb].
    reflexivity. }
  rewrite E, split_once_no_slash by reflexivity. reflexivity.
Qed.

(** X7.  The URL the Locator returns always parses: the download goes
    to the same key of the NOAA bucket over HTTPS, provided the key
    does not itself contain ["s3://"], every occurrence of which is
    removed. *)
Lemma located_url_downloads s3 now url ref_time :
  get_latest_nwm_url s3 now = Ok (url, ref_time) ->
  exists key,
    url = "s3://noaa-nwm-pds/" +:+ key /\
    https_url_of url
      = Ok ("https://noaa-nwm-pds.s3.amazonaws.com/" +:+ remove_scheme 0 key) /\
    (PyStr.contains "s3://" key = false -> remove_scheme 0 key = key).
Proof.
  intros H. apply get_latest_nwm_url_result in H as (key & h & d & _ & -> & _).
  exists key. split; [reflexivity|]. split; [apply https_url_of_key|].
  apply remove_scheme_id.
Qed.

Lemma scratch_file_not_dir d : d +:+ "/nwm_channel_rt.nc" <> d.
Proof.
  intros E. apply (f_equal String.length) in E.
  rewrite append_length in E. simpl in E. lia.
Qed.

(** X8.  Once the URL has parsed, [download_nwm_file] makes the
    scratch directory whatever follows, sends no PUT request and
    touches no other path.  It returns only the path of the file in
    that directory, and then the answer had no error status, a
    [content-length] that is absent or an integer, and a body that
    arrived whole and is what the file holds; otherwise it raises the
    error of the request, or [ValueError] for the header. *)
Lemma download_nwm_file_outcome env s3_url https w :
  https_url_of s3_url = Ok https ->
  let out := download_nwm_file env s3_url w in
  let temp_file := mkdtemp env +:+ "/nwm_channel_rt.nc" in
  puts out.2 = puts w /\
  fs out.2 !! mkdtemp env = Some Dir /\
  (forall p, p <> mkdtemp env -> p <> temp_file -> fs out.2 !! p = fs w !! p) /\
  (forall path, out.1 = Ok path ->
     path = temp_file /\
     exists status header body n,
       http_get env https = Response status header body true /\
       (status < 400 \/ 600 <= status) /\
       total_size header = Ok n /\
       fs out.2 !! path = Some (File body)) /\
  (forall e, out.1 = Raise e -> e = RequestException \/ e = ValueError).
Proof.
  intros Hu out temp_file. subst out. unfold download_nwm_file. rewrite Hu.
  fold temp_file.
  assert (Hne : temp_file <> mkdtemp env) by apply scratch_file_not_dir.
  assert (Hdir : forall r,
    let out := (r, {| fs := <[mkdtemp env := Dir]> (fs w); puts := puts w |}) in
    (forall path : string, r <> Ok path) ->
    (forall e, r = Raise e -> e = RequestException \/ e = ValueError) ->
    puts out.2 = puts w /\
    fs out.2 !! mkdtemp env = Some Dir /\
    (forall p, p <> mkdtemp env -> p <> temp_file -> fs out.2 !! p = fs w !! p) /\
    (forall path, out.1 = Ok path ->
       path = temp_file /\
       exists status header body n,
         http_get env https = Response status header body true /\
         (status < 400 \/ 600 <= status) /\
         total_size header = Ok n /\
         fs out.2 !! path = Some (File body)) /\
    (forall e, out.1 = Raise e -> e = RequestException \/ e = ValueError)).
  { intros r out Hr He. subst out. cbn [fst snd fs puts].
    split; [reflexivity|]. split; [apply lookup_insert_eq|].
    split; [intros p Hp _; now rewrite lookup_insert_ne|].
    split; [intros path E; now destruct (Hr path)|exact He]. }
  destruct (http_get env https) as [|status header body complete] eqn:Hg.
  { apply Hdir; [discriminate|]. intros e [= <-]. now left. }
  destruct ((400 <=? status) && (status <? 600)) eqn:Hs.
  { apply Hdir; [discriminate|]. intros e [= <-]. now left. }
  assert (Hstatus : status < 400 \/ 600 <= status).
  { apply andb_false_iff in Hs as [Hs|Hs];
      [left; apply Z.leb_gt in Hs|right; apply Z.ltb_ge in Hs]; lia. }
  destruct (total_size header) as [n|e] eqn:Ht.
  2:{ apply Hdir; [discriminate|]. intros e' [= <-]. right.
      unfold total_size, PyStr.int in Ht.
      destruct header; [|discriminate].
      match type of Ht with
      | match ?x with _ => _ end = _ => destruct x; [discriminate|]
      end.
      now injection Ht as <-. }
  destruct complete; cbn [fst snd fs puts].
  - split; [reflexivity|].
    split; [rewrite lookup_insert_ne by assumption; apply lookup_insert_eq|].
    split; [intros p Hp Hp'; rewrite !lookup_insert_ne by congruence; reflexivity|].
    split; [|discriminate].
    intros path [= <-]. split; [reflexivity|].
    exists status, header, body, n. repeat split; auto. apply lookup_insert_eq.
  - split; [reflexivity|].
    split; [rewrite lookup_insert_ne by assumption; apply lookup_insert_eq|].
    split; [intros p Hp Hp'; rewrite !lookup_insert_ne by congruence; reflexivity|].
    split; [discriminate|]. intros e [= <-]. now left.
Qed.

End Download.

Lemma located_url_downloads_witness :
  exists key,
    "s3://noaa-nwm-pds/" +:+ nwm_key "20240115" "12" "channel_rt" "00"
      = "s3://noaa-nwm-pds/" +:+ key /\
    https_url_of ("s3://noaa-nwm-pds/" +:+ nwm_key "20240115" "12" "channel_rt" "00")
      = Ok ("https://noaa-nwm-pds.s3.amazonaws.com/" +:+ remove_scheme 0 key) /\
    (PyStr.contains "s3://" key = false -> remove_scheme 0 key = key).
Proof.
  apply (located_url_downloads (bucket_of three_hours) jan_15 _
           (mk_datetime 2024 1 15 12 0 0 0)).
  vm_compute. reflexivity.
Defined.

Lemma download_nwm_file_outcome_witness :
  let env := sample_env (Response 200 None (NetCDF four_rows) true) in
  fs (download_nwm_file env
        ("s3://noaa-nwm-pds/" +:+ nwm_key "20240115" "12" "channel_rt" "00")
        empty_world).2 !! mkdtemp env = Some Dir.
Proof.
  intros env.
  apply (download_nwm_file_outcome env
           ("s3://noaa-nwm-pds/" +:+ nwm_key "20240115" "12" "channel_rt" "00")
           ("https://noaa-nwm-pds.s3.amazonaws.com/"
              +:+ nwm_key "20240115" "12" "channel_rt" "00") empty_world).
  vm_compute. reflexivity.
Defined.

(* ===================================================================== *)
(** * More on the Extractor *)
(* ===================================================================== *)

Section ExtractorBounds.

Implicit Types (data : gmap string float) (row : Z * float).

(** The loop needs a streamflow for each identifier and reads no
    further. *)
Lemma process_rows_fold_le comids : forall i flows min data skipped,
  (length comids + i <= length flows)%nat ->
  process_rows comids i flows min data skipped =
    Ok (foldl add_row data
          (filter (fun row => excluded min row.2 = false) (zip comids (drop i flows))),
        (skipped + length (filter (fun row => excluded min row.2 = true)
                             (zip comids (drop i flows))))%nat).
Proof.
  induction comids as [|c comids IH]; intros i flows min data skipped Hlen.
  - simpl. rewrite Nat.add_0_r. reflexivity.
  - simpl in Hlen. cbn [process_rows].
    destruct (lookup_lt_is_Some_2 flows i ltac:(lia)) as [q Hq].
    rewrite Hq, (drop_S _ _ _ Hq). cbn [zip zip_with].
    assert (Hex : excluded min q = (isnan q || lt q (of_int 0)) || lt q min)
      by reflexivity.
    destruct (isnan q || lt q (of_int 0)) eqn:E1; [|destruct (lt q min) eqn:E2];
      simpl in Hex.
    + rewrite filter_cons_False by (simpl; congruence).
      rewrite filter_cons_True by (simpl; congruence).
      rewrite IH by lia. simpl. do 2 f_equal. lia.
    + rewrite filter_cons_False by (simpl; congruence).
      rewrite filter_cons_True by (simpl; congruence).
      rewrite IH by lia. simpl. do 2 f_equal. lia.
    + rewrite filter_cons_True by (simpl; congruence).
      rewrite filter_cons_False by (simpl; congruence).
      rewrite IH by lia. reflexivity.
Qed.

Lemma process_rows_short comids : forall i flows min data skipped,
  (i <= length flows)%nat -> (length flows < length comids + i)%nat ->
  process_rows comids i flows min data skipped = Raise IndexError.
Proof.
  induction comids as [|c comids IH]; intros i flows min data skipped Hi Hlen.
  - simpl in Hlen. lia.
  - cbn [process_rows]. destruct (flows !! i) as [q|] eqn:Hq; [|reflexivity].
    apply lookup_lt_Some in Hq. simpl in Hlen.
    destruct (isnan q || lt q (of_int 0)); [|destruct (lt q min)];
      apply IH; lia.
Qed.

(** X9.  [process_nwm_data] raises [IndexError] exactly when the file
    has fewer streamflow values than identifiers; values beyond the
    last identifier are never read. *)
Lemma process_nwm_data_lengths ds min :
  (process_nwm_data ds min = Raise IndexError <->
   (length (streamflow ds) < length (feature_id ds))%nat) /\
  ((length (feature_id ds) <= length (streamflow ds))%nat ->
   process_nwm_data ds min
   = process_nwm_data
       {| feature_id := feature_id ds;
          streamflow := take (length (feature_id ds)) (streamflow ds) |} min).
Proof.
  unfold process_nwm_data. split; [split|].
  - intros H.
    destruct (le_lt_dec (length (feature_id ds)) (length (streamflow ds))) as [L|L];
      [|exact L].
    rewrite process_rows_fold_le in H by lia. discriminate.
  - intros H. apply process_rows_short; lia.
  - intros H. cbn [feature_id streamflow].
    rewrite !process_rows_fold_le by (rewrite ?length_take; lia).
    rewrite !drop_0. now rewrite zip_with_take_r by lia.
Qed.

Lemma length_filter_excluded min (l : list (Z * float)) :
  (length (filter (fun row => excluded min row.2 = false) l)
   + length (filter (fun row => excluded min row.2 = true) l))%nat = length l.
Proof.
  induction l as [|[c q] l IH]; [reflexivity|].
  destruct (excluded min q) eqn:E.
  - rewrite filter_cons_False by (simpl; congruence).
    rewrite filter_cons_True by (simpl; congruence). simpl. lia.
  - rewrite filter_cons_True by (simpl; congruence).
    rewrite filter_cons_False by (simpl; congruence). simpl. lia.
Qed.

Lemma size_foldl_add_row_le l : forall data,
  (size (foldl add_row data l) <= size data + length l)%nat.
Proof.
  induction l as [|[c q] l IH]; intros data; simpl; [lia|].
  etransitivity; [apply IH|]. unfold add_row. simpl.
  destruct (data !! pretty c) eqn:E.
  - rewrite map_size_insert_Some by eauto. lia.
  - rewrite map_size_insert_None by assumption. lia.
Qed.

Lemma size_foldl_add_row l : forall data,
  NoDup l.*1 ->
  (forall c, c ∈ l.*1 -> data !! pretty c = None) ->
  size (foldl add_row data l) = (size data + length l)%nat.
Proof.
  induction l as [|[c q] l IH]; intros data Hnd Hfresh; simpl; [lia|].
  simpl in Hnd. apply NoDup_cons in Hnd as [Hc Hnd].
  rewrite IH; [|assumption|].
  - unfold add_row. simpl. rewrite map_size_insert_None; [lia|].
    apply Hfresh. simpl. left.
  - intros c' Hc'. unfold add_row. simpl. rewrite lookup_insert_ne.
    + apply Hfresh. simpl. now right.
    + intros E. apply (inj pretty) in E. subst c'. contradiction.
Qed.

(** X10.  The two numbers the Extractor reports add up: with one row
    per identifier, the entries of the dictionary and the skipped rows
    are all the rows; with repeated identifiers they are at most all
    the rows. *)
Lemma process_nwm_data_counts ds min data skipped :
  (length (feature_id ds) <= length (streamflow ds))%nat ->
  process_nwm_data ds min = Ok (data, skipped) ->
  (size data + skipped <= length (feature_id ds))%nat /\
  (NoDup (feature_id ds) ->
   (size data + skipped)%nat = length (feature_id ds)).
Proof.
  intros Hlen H. unfold process_nwm_data in H.
  rewrite process_rows_fold_le, drop_0 in H by lia. injection H as <- <-.
  pose proof (length_filter_excluded min (zip (feature_id ds) (streamflow ds))) as Hc.
  rewrite length_zip, Nat.min_l in Hc by lia. split.
  - pose proof (size_foldl_add_row_le
                  (filter (fun row => excluded min row.2 = false)
                     (zip (feature_id ds) (streamflow ds))) ∅) as Hs.
    rewrite map_size_empty in Hs. simpl. lia.
  - intros Hnd. rewrite size_foldl_add_row.
    + rewrite map_size_empty. simpl. lia.
    + now apply kept_rows_NoDup.
    + intros c _. apply lookup_empty.
Qed.

(** X11.  When an identifier is repeated, the entry is that of its
    last row that passes the filter. *)
Lemma process_nwm_data_last_row_wins ds min data skipped before c q after :
  process_nwm_data ds min = Ok (data, skipped) ->
  (length (feature_id ds) <= length (streamflow ds))%nat ->
  rows (feature_id ds) (streamflow ds) = before ++ (c, q) :: after ->
  excluded min q = false ->
  (forall q', (c, q') ∈ after -> excluded min q' = true) ->
  data !! pretty c = Some (round2 q).
Proof.
  intros H Hlen Hrows Hq Hafter. unfold process_nwm_data in H.
  rewrite process_rows_fold_le, drop_0 in H by lia. injection H as <- _.
  unfold rows in Hrows. rewrite Hrows.
  rewrite filter_app, filter_cons_True by (simpl; assumption).
  rewrite foldl_app. cbn [foldl].
  rewrite foldl_add_row_other.
  - unfold add_row. simpl. apply lookup_insert_eq.
  - intros Hin. apply list_elem_of_fmap in Hin as ([c' q'] & E & Hin).
    simpl in E. subst c'.
    apply list_elem_of_filter in Hin as [Hk Hin]. simpl in Hk.
    rewrite (Hafter q' Hin) in Hk. discriminate.
Qed.

End ExtractorBounds.

Section Composition.

(** X12.  With the default minimum, no value of the dictionary is
    classified ["very_low"] or ["low"] by [categorize_streamflow]. *)
Lemma stored_values_not_low ds data skipped k v :
  Forall (fun q => valid q = true) (streamflow ds) ->
  process_nwm_data ds DEFAULT_MIN_STREAMFLOW = Ok (data, skipped) ->
  data !! k = Some v ->
  categorize_streamflow v ∈ ["moderate"; "high"; "very_high"; "extreme"]%string.
Proof.
  intros Vf H Hk.
  destruct (process_rows_entries _ _ _ _ _ _ _ _ H k v Hk) as [H0|(q & Hin & Hex & ->)].
  { rewrite lookup_empty in H0. discriminate. }
  unfold excluded in Hex.
  apply orb_false_iff in Hex as [Hex Hmin]. apply orb_false_iff in Hex as [Hnan Hneg].
  rewrite Forall_forall in Vf. specialize (Vf q Hin).
  assert (Hle : le (round2 DEFAULT_MIN_STREAMFLOW) (round2 q) = true)
    by (apply round2_kept_above_minimum; auto).
  change (round2 DEFAULT_MIN_STREAMFLOW) with (of_int 10) in Hle.
  apply le_not_lt in Hle.
  assert (H1 : lt (round2 q) (of_int 1) = false).
  { destruct (lt (round2 q) (of_int 1)) eqn:E; [|reflexivity].
    rewrite (lt_trans _ (of_int 1) (of_int 10) E eq_refl) in Hle. discriminate. }
  unfold categorize_streamflow. rewrite H1, Hle.
  destruct (lt (round2 q) (of_int 50)); [set_solver|].
  destruct (lt (round2 q) (of_int 200)); [set_solver|].
  destruct (lt (round2 q) (of_int 1000)); set_solver.
Qed.

End Composition.

Lemma process_nwm_data_lengths_witness :
  process_nwm_data four_rows DEFAULT_MIN_STREAMFLOW
  = process_nwm_data
      {| feature_id := feature_id four_rows;
         streamflow := take (length (feature_id four_rows)) (streamflow four_rows) |}
      DEFAULT_MIN_STREAMFLOW.
Proof.
  apply (proj2 (process_nwm_data_lengths four_rows DEFAULT_MIN_STREAMFLOW)).
  simpl. lia.
Defined.

Lemma process_nwm_data_counts_witness :
  (size ({[ "103"%string := decimal 150 10 ]} : gmap string float) + 3)%nat
  = length (feature_id four_rows).
Proof.
  apply (proj2 (process_nwm_data_counts four_rows DEFAULT_MIN_STREAMFLOW
                  {[ "103"%string := decimal 150 10 ]} 3%nat
                  ltac:(simpl; lia) ltac:(vm_compute; reflexivity))).
  compute_done.
Defined.

Lemma process_nwm_data_last_row_wins_witness :
  ({[ "7"%string := decimal 340 10 ]} : gmap string float) !! pretty (7 : Z)
  = Some (round2 (decimal 340 10)).
Proof.
  apply (process_nwm_data_last_row_wins repeated_rows DEFAULT_MIN_STREAMFLOW
           {[ "7"%string := decimal 340 10 ]} 1%nat
           [(7, decimal 120 10)] 7 (decimal 340 10) [(7, decimal 50 10)]).
  - vm_compute. reflexivity.
  - simpl. lia.
  - reflexivity.
  - reflexivity.
  - intros q' Hq'. apply list_elem_of_singleton in Hq'. injection Hq' as ->. reflexivity.
Defined.

Lemma stored_values_not_low_witness :
  categorize_streamflow (decimal 150 10)
  ∈ ["moderate"; "high"; "very_high"; "extreme"]%string.
Proof.
  apply (stored_values_not_low four_rows {[ "103"%string := decimal 150 10 ]}
           3%nat "103"%string (decimal 150 10)).
  - repeat constructor.
  - vm_compute. reflexivity.
  - reflexivity.
Defined.

(* ===================================================================== *)
(** * More on the classifiers *)
(* ===================================================================== *)

Section ClassifierOrder.

Lemma le_lt_trans x y z : le x y = true -> lt y z = true -> lt x z = true.
Proof.
  unfold le, lt, SFleb, SFltb.
  destruct (SFcompare x y) as [[]|] eqn:Exy; try discriminate; intros _;
    destruct (SFcompare y z) as [[]|] eqn:Eyz; try discriminate; intros _.
  - (* x = y < z *)
    destruct x as [[]|[]| |[] mx ex], y as [[]|[]| |[] my ey], z as [[]|[]| |[] mz ez];
      simpl in *; try congruence;
      injection Exy as Exy; injection Eyz as Eyz;
      repeat match goal with
        | H : context [ (?a ?= ?b)%Z ] |- _ => destruct (Z.compare_spec a b)
        | H : context [ Pos.compare_cont Eq ?a ?b ] |- _ =>
            change (Pos.compare_cont Eq a b) with (Pos.compare a b) in H;
            destruct (Pos.compare_spec a b)
        end; simpl in *; try congruence; subst;
      rewrite ?Z.compare_refl; try reflexivity;
      repeat match goal with
        | H : (?a < ?b)%Z |- context [ (?a ?= ?b)%Z ] =>
            rewrite (proj2 (Z.compare_lt_iff a b) H)
        | H : (?a < ?b)%positive |- context [ Pos.compare_cont Eq ?a ?b ] =>
            change (Pos.compare_cont Eq a b) with (Pos.compare a b);
            rewrite (proj2 (Pos.compare_lt_iff a b) H)
        | H : (?a < ?b)%positive |- context [ Pos.compare_cont Eq ?b ?a ] =>
            change (Pos.compare_cont Eq b a) with (Pos.compare b a);
            rewrite (proj2 (Pos.compare_gt_iff b a) H)
        | H : (?a < ?b)%Z |- context [ (?b ?= ?a)%Z ] =>
            rewrite (proj2 (Z.compare_gt_iff b a) H)
        end; reflexivity.
  - now rewrite (compare_Lt_trans x y z Exy Eyz).
Qed.

Ltac climb x y t M :=
  let Y := fresh "Y" in
  destruct (lt y t) eqn:Y; [rewrite ?(M Y)|destruct (lt x t)];
  try solve [cbn; lia].

(** X13.  Both classifiers are monotone: a greater value never gets a
    lower label. *)
Lemma classifiers_monotone x y :
  le x y = true ->
  (label_rank velocity_labels (categorize_velocity x)
   <= label_rank velocity_labels (categorize_velocity y))%nat /\
  (label_rank streamflow_labels (categorize_streamflow x)
   <= label_rank streamflow_labels (categorize_streamflow y))%nat.
Proof.
  intros H.
  assert (M : forall t, lt y t = true -> lt x t = true)
    by (intros t; now apply le_lt_trans).
  unfold categorize_velocity, categorize_streamflow. split.
  - generalize (decimal 1 10) (decimal 3 10) (decimal 6 10) (decimal 10 10)
      (decimal 20 10).
    intros t1 t2 t3 t4 t5.
    climb x y t1 (M t1); climb x y t2 (M t2); climb x y t3 (M t3);
      climb x y t4 (M t4); climb x y t5 (M t5).
  - generalize (of_int 1) (of_int 10) (of_int 50) (of_int 200) (of_int 1000).
    intros t1 t2 t3 t4 t5.
    climb x y t1 (M t1); climb x y t2 (M t2); climb x y t3 (M t3);
      climb x y t4 (M t4); climb x y t5 (M t5).
Qed.

End ClassifierOrder.

Lemma classifiers_monotone_witness :
  (label_rank velocity_labels (categorize_velocity (decimal 5 10))
   <= label_rank velocity_labels (categorize_velocity (decimal 15 10)))%nat /\
  (label_rank streamflow_labels (categorize_streamflow (decimal 5 10))
   <= label_rank streamflow_labels (categorize_streamflow (decimal 15 10)))%nat.
Proof.
  apply (classifiers_monotone (decimal 5 10) (decimal 15 10)). reflexivity.
Defined.

(* ===================================================================== *)
(** * More on the whole run *)
(* ===================================================================== *)

Section WholeRun.

Variable cfg : config.

Lemma download_ok_world env s3_url w nc_path w1 :
  download_nwm_file env s3_url w = (Ok nc_path, w1) ->
  nc_path = mkdtemp env +:+ "/nwm_channel_rt.nc" /\
  puts w1 = puts w /\
  exists body, fs w1 = <[nc_path := File body]> (<[mkdtemp env := Dir]> (fs w)).
Proof.
  unfold download_nwm_file. intros Hd.
  destruct (https_url_of s3_url) as [u|e]; [|discriminate].
  destruct (http_get env u) as [|status cl body complete]; [discriminate|].
  destruct ((400 <=? status) && (status <? 600)); [discriminate|].
  destruct (total_size cl); [|discriminate].
  destruct complete; [|discriminate].
  injection Hd as <- <-. split; [reflexivity|]. split; [reflexivity|]. simpl. eauto.
Qed.

(** After a download into a new scratch directory the [finally] block
    always succeeds, and removes the file and the directory. *)
Lemma cleanup_succeeds env s3_url w nc_path w1 ref_time dry_run :
  download_nwm_file env s3_url w = (Ok nc_path, w1) ->
  fresh_scratch env w ->
  let w2 := (process_and_upload cfg env nc_path ref_time dry_run w1).2 in
  cleanup env nc_path w2
  = (Ok (), {| fs := delete (mkdtemp env) (delete nc_path (fs w2)); puts := puts w2 |}).
Proof.
  intros Hd Hnew w2.
  apply download_ok_world in Hd as (Hnc & _ & body & Hfs1).
  pose proof (process_and_upload_fs cfg env nc_path ref_time dry_run w1) as Hfs2.
  fold w2 in Hfs2. cbv zeta in Hfs2.
  assert (Hin : forall p, p ∈ dom (fs w2) ->
                  p = nc_path \/ PyStr.startswith p (mkdtemp env +:+ "/") = false).
  { intros p Hp. apply elem_of_dom in Hp.
    assert (Hp1 : is_Some (fs w1 !! p) \/ p = LOCAL_PATH).
    { destruct Hfs2 as [E|[c E]]; rewrite E in Hp; [now left|].
      apply lookup_insert_is_Some in Hp as [<-|[_ Hp]]; auto. }
    destruct Hp1 as [Hp1| ->].
    - rewrite Hfs1 in Hp1.
      apply lookup_insert_is_Some in Hp1 as [<-|[_ Hp1]]; [now left|].
      apply lookup_insert_is_Some in Hp1 as [<-|[_ Hp1]].
      + right. apply not_inside_itself.
      + right. apply Hnew. now apply elem_of_dom.
    - right. now apply not_inside_without_slash. }
  assert (Hsome : is_Some (fs w2 !! nc_path)).
  { destruct Hfs2 as [E|[c E]]; rewrite E.
    - rewrite Hfs1, lookup_insert_eq. eauto.
    - apply lookup_insert_is_Some'. right. rewrite Hfs1, lookup_insert_eq. eauto. }
  unfold cleanup. destruct Hsome as [n Hn]. rewrite Hn.
  unfold rmdir, parent_of. cbn [fs puts]. case_decide as Hex; [|reflexivity].
  exfalso. destruct Hex as (p & Hp & Hstart).
  apply elem_of_dom in Hp. apply lookup_delete_is_Some in Hp as [Hne Hp].
  destruct (Hin p) as [E|E]; [now apply elem_of_dom|congruence|congruence].
Qed.

Lemma process_and_upload_real env nc_path ref_time w :
  let out := process_and_upload cfg env nc_path ref_time false w in
  fs out.2 = fs w /\
  (forall e, out.1 = Raise e -> puts out.2 = puts w) /\
  (forall url, out.1 = Ok url ->
     exists req, puts out.2 = puts w ++ [req] /\
                 put_bucket req = OUTPUT_BUCKET cfg /\ put_key req = OUTPUT_KEY).
Proof.
  unfold process_and_upload.
  destruct (ds ← open_dataset w nc_path; process_nwm_data ds DEFAULT_MIN_STREAMFLOW)
    as [[data n]|e].
  - unfold upload_to_s3. destruct (put_fails env); cbn [fst snd fs puts].
    + split; [reflexivity|]. split; [reflexivity|discriminate].
    + split; [reflexivity|]. split; [discriminate|].
      intros url _. eexists. split; [reflexivity|]. split; reflexivity.
  - cbn [fst snd]. split; [reflexivity|]. split; [reflexivity|discriminate].
Qed.

(** X15.  In a new scratch directory, a run that is not a dry run
    publishes one document when it succeeds and nothing when it fails:
    a failed run sends no PUT request, a successful one exactly one, to
    the configured bucket under the fixed key. *)
Lemma main_publishes_only_on_success env w :
  fresh_scratch env w ->
  let out := main cfg env false w in
  (forall e, out.1 = Raise e -> puts out.2 = puts w) /\
  (forall url, out.1 = Ok url ->
     exists req, puts out.2 = puts w ++ [req] /\
                 put_bucket req = OUTPUT_BUCKET cfg /\
                 put_key req = "live/current_velocity.json"%string).
Proof.
  intros Hnew. unfold main.
  destruct (get_latest_nwm_url (noaa env) (clock env)) as [[s3_url ref_time]|e].
  2:{ cbn [fst snd]. split; [reflexivity|discriminate]. }
  pose proof (download_puts env s3_url w) as Hp1.
  destruct (download_nwm_file env s3_url w) as [[nc_path|e] w1] eqn:Hd.
  2:{ cbn [fst snd] in *. split; [intros; exact Hp1|discriminate]. }
  cbn [snd] in Hp1.
  pose proof (cleanup_succeeds env s3_url w nc_path w1 ref_time false Hd Hnew) as Hc.
  pose proof (process_and_upload_real env nc_path ref_time w1) as Hr.
  cbv zeta in Hc, Hr.
  destruct (process_and_upload cfg env nc_path ref_time false w1) as [r w2].
  cbn [fst snd] in Hc, Hr. rewrite Hc. cbn [fst snd puts].
  destruct Hr as (_ & Hfail & Hok). rewrite <- Hp1. split; assumption.
Qed.

(** X16.  The whole of a successful run: when the Locator finds a
    file, the download answers with a file that opens, and the PUT
    request is accepted, [main] returns the public URL of the
    document; the one request it has sent carries the compact document
    with the reference time of the Locator, the dictionary of
    [process_nwm_data] at the default minimum and its size as
    [site_count]; and the file system is as before, without the scratch
    directory and its file. *)
Lemma main_success env w s3_url ref_time https status header ds n data skipped :
  fresh_scratch env w ->
  get_latest_nwm_url (noaa env) (clock env) = Ok (s3_url, ref_time) ->
  https_url_of s3_url = Ok https ->
  http_get env https = Response status header (NetCDF ds) true ->
  status < 400 \/ 600 <= status ->
  total_size header = Ok n ->
  process_nwm_data ds DEFAULT_MIN_STREAMFLOW = Ok (data, skipped) ->
  put_fails env = false ->
  main cfg env false w
  = (Ok ("https://" +:+ OUTPUT_BUCKET cfg +:+ ".s3." +:+ OUTPUT_REGION cfg
           +:+ ".amazonaws.com/live/current_velocity.json"),
     {| fs := delete (mkdtemp env)
                (delete (mkdtemp env +:+ "/nwm_channel_rt.nc") (fs w));
        puts := puts w ++
          [ {| put_profile :=
                 match AWS_PROFILE cfg with
                 | Some p => if String.eqb p "" then None else Some p
                 | None => None
                 end;
               put_bucket := OUTPUT_BUCKET cfg;
               put_key := "live/current_velocity.json";
               put_body :=
                 Json Compact {| generated_at := upload_clock env;
                                 reference_time := ref_time;
                                 site_count := size data;
                                 sites := data |};
               put_content_type := "application/json";
               put_cache_control := "max-age=300" |} ] |}).
Proof.
  intros Hnew Hl Hu Hg Hs Ht Hp Hput.
  assert (Hd : download_nwm_file env s3_url w
               = (Ok (mkdtemp env +:+ "/nwm_channel_rt.nc"),
                  {| fs := <[mkdtemp env +:+ "/nwm_channel_rt.nc" := File (NetCDF ds)]>
                             (<[mkdtemp env := Dir]> (fs w));
                     puts := puts w |})).
  { unfold download_nwm_file. rewrite Hu, Hg, Ht.
    replace ((400 <=? status) && (status <? 600)) with false; [reflexivity|].
    symmetry. apply andb_false_iff.
    destruct Hs; [left; apply Z.leb_gt|right; apply Z.ltb_ge]; lia. }
  pose proof (cleanup_succeeds env s3_url w _ _ ref_time false Hd Hnew) as Hc.
  cbv zeta in Hc. unfold main. rewrite Hl, Hd.
  assert (Hpu : process_and_upload cfg env (mkdtemp env +:+ "/nwm_channel_rt.nc")
                  ref_time false
                  {| fs := <[mkdtemp env +:+ "/nwm_channel_rt.nc" := File (NetCDF ds)]>
                             (<[mkdtemp env := Dir]> (fs w));
                     puts := puts w |}
                = upload_to_s3 cfg env data ref_time false
                    {| fs := <[mkdtemp env +:+ "/nwm_channel_rt.nc" := File (NetCDF ds)]>
                               (<[mkdtemp env := Dir]> (fs w));
                       puts := puts w |}).
  { unfold process_and_upload, open_dataset. cbn [fs].
    rewrite lookup_insert_eq. cbn [mbind result_bind]. rewrite Hp. reflexivity. }
  rewrite Hpu in Hc |- *. unfold upload_to_s3 in Hc |- *. rewrite Hput in Hc |- *.
  cbn [fst snd fs puts] in Hc. cbv beta iota. cbn [fs puts]. rewrite Hc. f_equal. f_equal.
  rewrite delete_insert_eq, (delete_delete _ (mkdtemp env)), delete_insert_eq.
  apply delete_delete.
Qed.

End WholeRun.

Lemma main_cleans_up_after_download_witness :
  let env := sample_env (Response 200 None Unreadable true) in
  let w' := (main sample_config env false empty_world).2 in
  fs w' !! (mkdtemp env +:+ "/nwm_channel_rt.nc") = None /\
  fs w' !! mkdtemp env = None.
Proof.
  intros env.
  apply (main_cleans_up_after_download sample_config env false empty_world
           ("s3://noaa-nwm-pds/" +:+ nwm_key "20240115" "12" "channel_rt" "00")
           (mk_datetime 2024 1 15 12 0 0 0)
           (mkdtemp env +:+ "/nwm_channel_rt.nc")
           {| fs := <[mkdtemp env +:+ "/nwm_channel_rt.nc" := File Unreadable]>
                      (<[mkdtemp env := Dir]> ∅);
              puts := [] |}).
  - vm_compute. reflexivity.
  - vm_compute. reflexivity.
  - intros p Hp. simpl in Hp. rewrite dom_empty_L in Hp.
    now apply elem_of_empty in Hp.
Defined.

Lemma main_publishes_only_on_success_witness :
  puts (main sample_config (sample_env ConnectionFailed) false empty_world).2 = [].
Proof.
  apply (proj1 (main_publishes_only_on_success sample_config
                  (sample_env ConnectionFailed) empty_world
                  ltac:(intros p Hp; simpl in Hp; rewrite dom_empty_L in Hp;
                        now apply elem_of_empty in Hp))
           RequestException).
  vm_compute. reflexivity.
Defined.

Lemma main_success_witness :
  (main sample_config (sample_env (Response 200 None (NetCDF four_rows) true))
     false empty_world).1
  = Ok "https://nwm-streamflow-data.s3.us-east-1.amazonaws.com/live/current_velocity.json"%string.
Proof.
  rewrite (main_success sample_config
             (sample_env (Response 200 None (NetCDF four_rows) true)) empty_world
             ("s3://noaa-nwm-pds/" +:+ nwm_key "20240115" "12" "channel_rt" "00")
             (mk_datetime 2024 1 15 12 0 0 0)
             ("https://noaa-nwm-pds.s3.amazonaws.com/"
                +:+ nwm_key "20240115" "12" "channel_rt" "00")
             200 None four_rows 0 {[ "103"%string := decimal 150 10 ]} 3%nat).
  - reflexivity.
  - intros p Hp. simpl in Hp. rewrite dom_empty_L in Hp. now apply elem_of_empty in Hp.
  - vm_compute. reflexivity.
  - vm_compute. reflexivity.
  - reflexivity.
  - left. lia.
  - reflexivity.
  - vm_compute. reflexivity.
  - reflexivity.
Defined.

Lemma get_latest_nwm_url_first_day_witness :
  get_latest_nwm_url leap_day_bucket mar_1 = Raise ValueError.
Proof.
  apply (get_latest_nwm_url_first_day leap_day_bucket mar_1).
  - reflexivity.
  - vm_compute. reflexivity.
Defined.
